(** * Proto Store: the cart manager of [Proto-Store/src/App.tsx]

    A shallow embedding of the React component [App]: the cart handlers
    [addToCart], [updateQuantity], [removeFromCart], the derived [total]
    and the order handler [handlePayment], together with the JavaScript
    built-ins they call ([parseFloat], [parseInt], [Number.prototype.toFixed],
    [===], [<], [+], [*] on numbers).

    JavaScript numbers are IEEE 754 binary64 values; they are modelled by
    Rocq's primitive [float], whose operations are the same binary64
    operations with round-to-nearest-even. *)

From Stdlib Require Import Floats ZArith Ascii String DecimalString.
From stdpp Require Import base gmap strings list.

Local Open Scope Z_scope.

(** ** JavaScript numbers *)

Module JS.

Definition number := float.

Definition NaN : number := PrimFloat.nan.
Definition Infinity : number := PrimFloat.infinity.
Definition neg_Infinity : number := PrimFloat.neg_infinity.

(** [a === b] on two numbers: false when either is NaN, [+0 === -0]. *)
Definition strict_eq (a b : number) : bool := PrimFloat.eqb a b.

(** [a < b] on two numbers: false when either is NaN. *)
Definition lt (a b : number) : bool := PrimFloat.ltb a b.

(** [a >= b] on two numbers: false when either is NaN. *)
Definition ge (a b : number) : bool := PrimFloat.leb b a.

Definition add (a b : number) : number := PrimFloat.add a b.
Definition mul (a b : number) : number := PrimFloat.mul a b.

(** The Number value for the rational [n / d] (ECMAScript's 𝔽): the
    nearest binary64 value, ties to even, overflowing to an infinity.  It is
    the correctly rounded quotient of the specification of binary64
    division, taken on the two integers as (unbounded) mantissas. *)
Definition number_of_ratio (neg : bool) (n d : positive) : number :=
  SF2Prim (SFdiv prec emax (S754_finite neg n 0) (S754_finite false d 0)).

(** The Number value for [(-1)^neg * m * 10^e], with [-0] for a negative
    zero. *)
Definition number_of_decimal (neg : bool) (m e : Z) : number :=
  match m with
  | Zpos p =>
      match e with
      | Zneg k => number_of_ratio neg p (Pos.pow 10 k)
      | Z0 => number_of_ratio neg p 1
      | Zpos k => number_of_ratio neg (p * Pos.pow 10 k) 1
      end
  | _ => if neg then (-0)%float else 0%float
  end.

(** *** Lexing of numeric strings *)

Definition is_digit (c : ascii) : bool :=
  let n := N_of_ascii c in ((48 <=? n) && (n <=? 57))%N.

Definition digit_value (c : ascii) : Z := Z.of_N (N_of_ascii c) - 48.

(** White space and line terminators that [parseFloat] and [parseInt] strip
    from the front.  A text is the UTF-8 encoding of the JavaScript string.
    The one-byte ones are TAB, LF, VT, FF, CR and SP. *)
Definition is_space (c : ascii) : bool :=
  let n := N_of_ascii c in ((n =? 32) || ((9 <=? n) && (n <=? 13)))%N.

(** U+00A0, in two bytes. *)
Definition is_space2 (c1 c2 : ascii) : bool :=
  ((N_of_ascii c1 =? 194) && (N_of_ascii c2 =? 160))%N.

(** The three-byte ones: U+1680, U+2000 to U+200A, U+2028, U+2029,
    U+202F, U+205F, U+3000 and U+FEFF. *)
Definition is_space3 (c1 c2 c3 : ascii) : bool :=
  let n1 := N_of_ascii c1 in
  let n2 := N_of_ascii c2 in
  let n3 := N_of_ascii c3 in
  (((n1 =? 225) && (n2 =? 154) && (n3 =? 128))
   || ((n1 =? 226) && (n2 =? 128)
       && (((128 <=? n3) && (n3 <=? 138)) || (n3 =? 168) || (n3 =? 169) || (n3 =? 175)))
   || ((n1 =? 226) && (n2 =? 129) && (n3 =? 159))
   || ((n1 =? 227) && (n2 =? 128) && (n3 =? 128))
   || ((n1 =? 239) && (n2 =? 187) && (n3 =? 191)))%N.

Fixpoint trimStart (s : string) : string :=
  match s with
  | String c1 r1 =>
      if is_space c1 then trimStart r1
      else
        match r1 with
        | String c2 r2 =>
            if is_space2 c1 c2 then trimStart r2
            else
              match r2 with
              | String c3 r3 => if is_space3 c1 c2 c3 then trimStart r3 else s
              | EmptyString => s
              end
        | EmptyString => s
        end
  | EmptyString => s
  end.

(** The longest prefix of decimal digits, as their values, and the rest. *)
Fixpoint span_digits (s : string) : list Z * string :=
  match s with
  | String c r =>
      if is_digit c then
        let '(ds, rest) := span_digits r in (digit_value c :: ds, rest)
      else ([], s)
  | EmptyString => ([], s)
  end.

Definition digits_value (radix : Z) (ds : list Z) : Z :=
  fold_left (fun acc d => radix * acc + d) ds 0.

(** An optional sign: [true] for a leading minus. *)
Definition read_sign (s : string) : bool * string :=
  match s with
  | String "-" r => (true, r)
  | String "+" r => (false, r)
  | _ => (false, s)
  end.

(** *** [parseFloat]

    The longest prefix of the trimmed string that is a StrDecimalLiteral
    is converted; NaN when there is none.  The value is the correctly
    rounded one for any number of digits (ECMAScript lets an implementation
    drop the digits after the twentieth). *)

(** ExponentPart, when the text starts with one: its value ([0] otherwise). *)
Definition read_exponent (s : string) : Z :=
  match s with
  | String c r =>
      if (Ascii.eqb c "e" || Ascii.eqb c "E")%bool then
        let '(neg, r1) := read_sign r in
        let '(ds, _) := span_digits r1 in
        match ds with
        | [] => 0
        | _ => if neg then - digits_value 10 ds else digits_value 10 ds
        end
      else 0
  | EmptyString => 0
  end.

Definition parseFloat (s : string) : number :=
  let '(neg, s1) := read_sign (trimStart s) in
  if String.prefix "Infinity" s1 then (if neg then neg_Infinity else Infinity)
  else
    let '(ip, s2) := span_digits s1 in
    let '(fp, s3) :=
      match s2 with
      | String "." r => span_digits r
      | _ => ([], s2)
      end in
    match ip ++ fp with
    | [] => NaN
    | ds =>
        number_of_decimal neg (digits_value 10 ds)
          (read_exponent s3 - Z.of_nat (length fp))
    end.

(** *** [parseInt] with no radix argument *)

Definition is_hex_digit (c : ascii) : bool :=
  let n := N_of_ascii c in
  (is_digit c || ((65 <=? n) && (n <=? 70)) || ((97 <=? n) && (n <=? 102)))%N.

Definition hex_digit_value (c : ascii) : Z :=
  let n := Z.of_N (N_of_ascii c) in
  if is_digit c then n - 48 else if n <? 97 then n - 55 else n - 87.

Fixpoint span_hex_digits (s : string) : list Z * string :=
  match s with
  | String c r =>
      if is_hex_digit c then
        let '(ds, rest) := span_hex_digits r in (hex_digit_value c :: ds, rest)
      else ([], s)
  | EmptyString => ([], s)
  end.

Definition parseInt (s : string) : number :=
  let '(neg, s1) := read_sign (trimStart s) in
  let '(radix, ds) :=
    if (String.prefix "0x" s1 || String.prefix "0X" s1)%bool
    then (16, fst (span_hex_digits (String.substring 2 (String.length s1 - 2) s1)))
    else (10, fst (span_digits s1)) in
  match ds with
  | [] => NaN
  | _ => number_of_decimal neg (digits_value radix ds) 0
  end.

(** *** [Number.prototype.toFixed] *)

(** The integer [n] for which [n / 10^fd] is closest to [m * 2^e], the
    larger one when two are equally close. *)
Definition fixed_scaled (m : positive) (e : Z) (fd : nat) : Z :=
  let a := Zpos m * 10 ^ Z.of_nat fd in
  match e with
  | Zneg k => (2 * a + Zpos (Pos.pow 2 k)) / (2 * Zpos (Pos.pow 2 k))
  | _ => a * 2 ^ e
  end.

Definition decimal_digits (n : Z) : string :=
  NilZero.string_of_uint (N.to_uint (Z.to_N n)).

Fixpoint zeros (k : nat) : string :=
  match k with
  | O => EmptyString
  | S k' => String "0" (zeros k')
  end.

(** The digits of [n], padded on the left to [fd + 1] digits, with a point
    before the last [fd] of them. *)
Definition fixed_digits (n : Z) (fd : nat) : string :=
  let m := decimal_digits n in
  let m := (zeros (S fd - String.length m) ++ m)%string in
  let k := String.length m in
  match fd with
  | O => m
  | _ => (String.substring 0 (k - fd) m ++ "." ++ String.substring (k - fd) fd m)%string
  end.

Section ToFixed.

(** [Number::toString] on a finite number of magnitude at least [10^21],
    where [toFixed] defers to it.  ECMAScript leaves its last digit to the
    implementation, so it stays a parameter. *)
Variable Number_toString_large : number -> string.

Definition toFixed (x : number) (fd : nat) : string :=
  match Prim2SF x with
  | S754_nan => "NaN"
  | S754_infinity s => if s then "-Infinity" else "Infinity"
  | S754_zero _ => fixed_digits 0 fd
  | S754_finite s m e =>
      ((if s then "-" else "") ++
       (if PrimFloat.leb 1e21 (PrimFloat.abs x)
        then Number_toString_large (PrimFloat.abs x)
        else fixed_digits (fixed_scaled m e fd) fd))%string
  end.

End ToFixed.

(** *** Signs of binary64 values *)

(** The sign of a non-negative number: a zero, a positive finite number or
    the positive infinity. *)
Definition sf_nonneg (x : spec_float) : bool :=
  match x with
  | S754_zero _ | S754_infinity false | S754_finite false _ _ => true
  | _ => false
  end.

Definition sf_finite (x : spec_float) : bool :=
  match x with
  | S754_zero _ | S754_finite _ _ _ => true
  | _ => false
  end.

(** The whole number a binary64 value stands for, when it is one. *)
Definition sf_whole (x : spec_float) : option Z :=
  match x with
  | S754_zero _ => Some 0
  | S754_finite s m e =>
      (if s then Z.opp else (fun v => v)) <$>
      match e with
      | Zneg k => if Zpos m mod 2 ^ Zpos k =? 0 then Some (Zpos m / 2 ^ Zpos k) else None
      | _ => Some (Zpos m * 2 ^ e)
      end
  | _ => None
  end.

Definition whole_value (x : number) : option Z := sf_whole (Prim2SF x).

(** A text of decimal digits. *)
Fixpoint all_digits (s : string) : bool :=
  match s with
  | String c r => is_digit c && all_digits r
  | EmptyString => true
  end.

(** The number 1. *)
Definition sf_one : spec_float := S754_finite false 4503599627370496 (-52).

End JS.


(** ** The component [App] *)

Module App.
Import JS.

Notation "a === b" := (strict_eq a b) (at level 70, no associativity).

(** *** Data *)

Record Product := {
  id : number;
  name : string;
  price : string;
  description : string;
  stock : number
}.

(** [type CartItem = Product & { quantity: number }]: the fields of the
    product and a quantity. *)
Record CartItem := {
  fields :> Product;
  quantity : number
}.

#[local] Set Warnings "-register-all".

(** Values that go into the body of a request. *)
Inductive JsValue :=
| JNumber (x : number)
| JString (s : string)
| JArray (elements : list JsValue)
| JObject (properties : list (string * JsValue)).

Definition get_property (key : string) (v : JsValue) : option JsValue :=
  match v with
  | JObject props => snd <$> List.find (fun kv => String.eqb (fst kv) key) props
  | _ => None
  end.

Definition property_names (v : JsValue) : list string :=
  match v with
  | JObject props => fst <$> props
  | _ => []
  end.

(** The state of the component (its [useState] cells) and the browser's
    [localStorage]. *)
Record AppState := {
  products : list Product;
  cart : list CartItem;
  showOrderForm : bool;
  customerName : string;
  deliveryAddress : string
}.

Record Browser := {
  state : AppState;
  localStorage : gmap string string
}.

(** What a handler does to the outside, in the order it does it. *)
Inductive Event :=
| Confirm (message : string)
| Alert (message : string)
| ConsoleError
| Post (url : string) (data : JsValue) (withCredentials : bool)
| StorageSet (key value : string)
| StorageRemove (key : string).

(** How the awaited request ends: a response with its status, or no
    response at all. *)
Inductive HttpReply :=
| Response (status : Z)
| NetworkError.

(** *** Handlers

    A handler runs on the browser's state and ends normally or by a throw,
    leaving a new state and the events it produced.  A handler reads the
    state cells of the render it was created in; they are taken to be the
    current ones, and a handler runs to its end before the next one. *)

Inductive Completion (A : Type) :=
| Normal (value : A)
| Throw.
Arguments Normal {A} value.
Arguments Throw {A}.

Definition Handler (A : Type) : Type :=
  Browser -> Completion A * Browser * list Event.

#[global] Instance handler_ret : MRet Handler :=
  fun A a b => (Normal a, b, []).

#[global] Instance handler_bind : MBind Handler :=
  fun A B f m b =>
    match m b with
    | (Normal a, b1, ev1) =>
        let '(r, b2, ev2) := f a b1 in (r, b2, ev1 ++ ev2)
    | (Throw, b1, ev1) => (Throw, b1, ev1)
    end.

(** [try { body } catch (err) { handler }] *)
Definition try_catch {A} (body handler : Handler A) : Handler A :=
  fun b =>
    match body b with
    | (Normal a, b1, ev1) => (Normal a, b1, ev1)
    | (Throw, b1, ev1) =>
        let '(r, b2, ev2) := handler b1 in (r, b2, ev1 ++ ev2)
    end.

(** The three parts of a run. *)
Definition completion {A} (h : Handler A) (b : Browser) : Completion A := (h b).1.1.
Definition after {A} (h : Handler A) (b : Browser) : Browser := (h b).1.2.
Definition events {A} (h : Handler A) (b : Browser) : list Event := (h b).2.

Definition render : Handler AppState :=
  fun b => (Normal (state b), b, []).

Definition set_state (f : AppState -> AppState) : Handler unit :=
  fun b => (Normal (), {| state := f (state b); localStorage := localStorage b |}, []).

Definition with_cart (c : list CartItem) (st : AppState) : AppState :=
  {| products := products st; cart := c; showOrderForm := showOrderForm st;
     customerName := customerName st; deliveryAddress := deliveryAddress st |}.

Definition setCart (c : list CartItem) : Handler unit :=
  set_state (with_cart c).

Definition setShowOrderForm (v : bool) : Handler unit :=
  set_state (fun st =>
    {| products := products st; cart := cart st; showOrderForm := v;
       customerName := customerName st; deliveryAddress := deliveryAddress st |}).

Definition setCustomerName (v : string) : Handler unit :=
  set_state (fun st =>
    {| products := products st; cart := cart st; showOrderForm := showOrderForm st;
       customerName := v; deliveryAddress := deliveryAddress st |}).

Definition setDeliveryAddress (v : string) : Handler unit :=
  set_state (fun st =>
    {| products := products st; cart := cart st; showOrderForm := showOrderForm st;
       customerName := customerName st; deliveryAddress := v |}).

Definition localStorage_setItem (key value : string) : Handler unit :=
  fun b => (Normal (),
            {| state := state b; localStorage := <[key := value]> (localStorage b) |},
            [StorageSet key value]).

Definition localStorage_removeItem (key : string) : Handler unit :=
  fun b => (Normal (),
            {| state := state b; localStorage := delete key (localStorage b) |},
            [StorageRemove key]).

Definition alert (message : string) : Handler unit :=
  fun b => (Normal (), b, [Alert message]).

Definition console_error : Handler unit :=
  fun b => (Normal (), b, [ConsoleError]).

(** [window.confirm(message)]: the dialog is shown and the user's answer
    comes back. *)
Definition window_confirm (answer : bool) (message : string) : Handler bool :=
  fun b => (Normal answer, b, [Confirm message]).

(** axios' default [validateStatus]: a response resolves the promise when
    its status is 2xx and rejects it otherwise. *)
Definition validateStatus (status : Z) : bool :=
  (200 <=? status) && (status <? 300).

Record AxiosResponse := { status : Z }.

(** [await axios.post(url, data, { withCredentials: true })] *)
Definition axios_post (reply : HttpReply) (url : string) (data : JsValue)
    (withCredentials : bool) : Handler AxiosResponse :=
  fun b =>
    match reply with
    | Response st =>
        if validateStatus st
        then (Normal {| status := st |}, b, [Post url data withCredentials])
        else (Throw, b, [Post url data withCredentials])
    | NetworkError => (Throw, b, [Post url data withCredentials])
    end.

(** *** What the page gets from outside the file *)

Class Host := {
  (** [JSON.stringify] on a cart *)
  JSON_stringify : list CartItem -> string;
  (** [import.meta.env.VITE_API_URL] *)
  API_URL : string;
  (** see [JS.toFixed] *)
  Number_toString_large : number -> string
}.

Section Component.
Context `{Host}.

Definition saveCart (updatedCart : list CartItem) : Handler unit :=
  setCart updatedCart;;
  localStorage_setItem "cart" (JSON_stringify updatedCart).

Definition addToCart (product : Product) : Handler unit :=
  st ← render;
  let exist := List.find (fun item : CartItem => id item === id product) (cart st) in
  match exist with
  | Some _ =>
      let updatedCart :=
        (fun item : CartItem =>
           if id item === id product
           then {| fields := item; quantity := add (quantity item) 1%float |}
           else item) <$> cart st in
      saveCart updatedCart
  | None =>
      saveCart (cart st ++ [ {| fields := product; quantity := 1%float |} ])
  end.

Definition updateQuantity (id' : number) (quantity' : number) : Handler unit :=
  if lt quantity' 1%float then mret ()
  else
    st ← render;
    let updatedCart :=
      (fun item : CartItem =>
         if id item === id' then {| fields := item; quantity := quantity' |}
         else item) <$> cart st in
    saveCart updatedCart.

Definition removeFromCart (id' : number) : Handler unit :=
  st ← render;
  let updatedCart := List.filter (fun item : CartItem => negb (id item === id')) (cart st) in
  saveCart updatedCart.

(** [cart.reduce((sum, item) => sum + parseFloat(item.price) * item.quantity, 0)] *)
Definition total (cart : list CartItem) : number :=
  fold_left (fun sum (item : CartItem) =>
               add sum (mul (parseFloat (price item)) (quantity item)))
            cart 0%float.

(** The [onChange] of the quantity field of a cart line. *)
Definition quantity_onChange (item : CartItem) (value : string) : Handler unit :=
  updateQuantity (id item) (parseInt value).

Definition orderData (st : AppState) : JsValue :=
  JObject [
    ("customerName", JString (customerName st));
    ("deliveryAddress", JString (deliveryAddress st));
    ("items", JArray ((fun item : CartItem =>
        JObject [
          ("product_id", JNumber (id item));
          ("quantity", JNumber (quantity item));
          ("price", JNumber (parseFloat (price item)))
        ]) <$> cart st));
    ("total", JString (toFixed Number_toString_large (total (cart st)) 2))
  ].

(** The text of the confirmation dialog and the address of the order
    endpoint. *)
Definition confirm_message (st : AppState) : string :=
  "Payment simulation: confirm the payment of "
  ++ toFixed Number_toString_large (total (cart st)) 2 ++ " PLN".

Definition order_url : string := API_URL ++ "/api/order".

Definition handlePayment (answer : bool) (reply : HttpReply) : Handler unit :=
  st ← render;
  isPaid ← window_confirm answer (confirm_message st);
  if negb isPaid then alert "Payment failed"
  else
    try_catch
      (res ← axios_post reply order_url (orderData st) true;
       if status res =? 201 then
         alert "Order placed successfully!";;
         setCart [];;
         localStorage_removeItem "cart";;
         setShowOrderForm false;;
         setCustomerName "";;
         setDeliveryAddress ""
       else mret ())
      (console_error;;
       alert "Error creating order").

End Component.

(** *** The first copy of the file

    The file comes in two copies.  The first one differs from the second
    one, modelled above, in [handlePayment] only: the address of the server
    is written out, the messages are in Ukrainian, and a line of the order
    carries the product's identifier under [id]. *)
Module Localhost.
Section Component.
Context `{Host}.

Definition orderData (st : AppState) : JsValue :=
  JObject [
    ("customerName", JString (customerName st));
    ("deliveryAddress", JString (deliveryAddress st));
    ("items", JArray ((fun item : CartItem =>
        JObject [
          ("id", JNumber (id item));
          ("quantity", JNumber (quantity item));
          ("price", JNumber (parseFloat (price item)))
        ]) <$> cart st));
    ("total", JString (toFixed Number_toString_large (total (cart st)) 2))
  ].

Definition handlePayment (answer : bool) (reply : HttpReply) : Handler unit :=
  st ← render;
  isPaid ← window_confirm answer
    ("Симуляція оплати: підтвердьте оплату "
     ++ toFixed Number_toString_large (total (cart st)) 2 ++ " грн");
  if negb isPaid then alert "Оплата не пройшла"
  else
    try_catch
      (res ← axios_post reply "http://localhost:5000/api/order" (orderData st) true;
       if status res =? 201 then
         alert "Замовлення успішно оформлено!";;
         setCart [];;
         localStorage_removeItem "cart";;
         setShowOrderForm false;;
         setCustomerName "";;
         setDeliveryAddress ""
       else mret ())
      (console_error;;
       alert "Помилка при створенні замовлення").

End Component.
End Localhost.

(** *** The invariants of the cart *)

(** No two lines of the cart have the same product: ids at different
    positions are never [===]. *)
Fixpoint distinct_ids (c : list CartItem) : bool :=
  match c with
  | [] => true
  | x :: r => forallb (fun y : CartItem => negb (id x === id y)) r && distinct_ids r
  end.

(** Every quantity is at least 1. *)
Definition quantities_at_least_1 (c : list CartItem) : bool :=
  forallb (fun item => ge (quantity item) 1%float) c.

(** *** The order *)

(** The browser after an order went through: an empty cart, no form, empty
    fields, nothing under ["cart"]. *)
Definition order_placed (b : Browser) : Browser :=
  {| state := {| products := products (state b); cart := []; showOrderForm := false;
                 customerName := ""; deliveryAddress := "" |};
     localStorage := delete "cart" (localStorage b) |}.

(** The total in the words of the specification: the amount of a line is
    its parsed price times its quantity, and the amounts are added up, from
    the left and from 0. *)
Definition line_amount (item : CartItem) : number :=
  mul (parseFloat (price item)) (quantity item).

Definition sum_of (amounts : list number) : number :=
  fold_left add amounts 0%float.

(** *** A host and a cart for the examples *)

(** The serializer of the examples lists the names and the quantities of
    the lines; the theorems hold for any serializer. *)
Definition sample_host : Host := {|
  JSON_stringify := fun c =>
    String.concat ","
      ((fun item : CartItem =>
          (name item ++ ":" ++ toFixed (fun _ => "") (quantity item) 0)%string) <$> c);
  API_URL := "https://store.example";
  Number_toString_large := fun _ => "1e+21"
|}.

Definition tea : Product :=
  {| id := 1%float; name := "Tea"; price := "9.99"; description := "Green tea"; stock := 12%float |}.

Definition mug : Product :=
  {| id := 2%float; name := "Mug"; price := "4.00"; description := "A mug"; stock := 5%float |}.

Definition browser_with (c : list CartItem) : Browser :=
  {| state := {| products := [tea; mug]; cart := c; showOrderForm := true;
                 customerName := "Olha"; deliveryAddress := "Lviv" |};
     localStorage := {["cart" := @JSON_stringify sample_host c]} |}.

(** The cart of the scenario: product 1 at "9.99" three times, product 2
    at "4.00" once. *)
Definition scenario_cart : list CartItem :=
  [ {| fields := tea; quantity := 3%float |}; {| fields := mug; quantity := 1%float |} ].

(** A line with a negative price. *)
Definition refund_line : CartItem :=
  {| fields := {| id := 3%float; name := "Voucher"; price := "-5.00";
                  description := "A voucher"; stock := 1%float |};
     quantity := 1%float |}.

(** *** The start of the page *)

(** The cells as [useState] creates them. *)
Definition initial_state : AppState :=
  {| products := []; cart := []; showOrderForm := false;
     customerName := ""; deliveryAddress := "" |}.

(** The page as it starts over a storage. *)
Definition fresh_page (storage : gmap string string) : Browser :=
  {| state := initial_state; localStorage := storage |}.

(** [localStorage.getItem(key)]: [None] is [null]. *)
Definition localStorage_getItem (key : string) : Handler (option string) :=
  fun b => (Normal (localStorage b !! key), b, []).

(** [if (savedCart)]: [null] and the empty text are falsy. *)
Definition truthy (text : option string) : bool :=
  match text with
  | Some t => negb (String.eqb t "")
  | None => false
  end.

(** [JSON.parse] on the stored text, at the type the code gives the cart
    ([useState<CartItem[]>]): a cart, or [None] for a text that makes it
    throw.  A text that parses to something else than a cart is outside
    this type, and outside what [saveCart] writes. *)
Class Parser := {
  JSON_parse : string -> option (list CartItem)
}.

Section Start.
Context `{Parser}.

Definition JSON_parse_or_throw (text : string) : Handler (list CartItem) :=
  fun b =>
    match JSON_parse text with
    | Some c => (Normal c, b, [])
    | None => (Throw, b, [])
    end.

(** The effect that loads the cart from [localStorage].  Nothing catches
    a throw of [JSON.parse]: it ends the page, and what is said of
    [loadCart] below is about the runs that end normally. *)
Definition loadCart : Handler unit :=
  savedCart ← localStorage_getItem "cart";
  if truthy savedCart then
    c ← JSON_parse_or_throw (default "" savedCart);
    setCart c
  else mret ().

End Start.

(** *** What the page offers

    The handlers as the JSX wires them to the buttons and fields, and the
    conditions under which they are rendered. *)

Inductive Action :=
| ClickAddToCart (product : Product)
| ChangeQuantity (item : CartItem) (value : string)
| ClickRemove (item : CartItem)
| ClickPlaceOrder
| ChangeCustomerName (value : string)
| ChangeDeliveryAddress (value : string)
| ClickPay (answer : bool) (reply : HttpReply).

(** [products.map], [cart.map], [cart.length > 0 && ...] and
    [showOrderForm && ...] *)
Definition offered (st : AppState) (a : Action) : Prop :=
  match a with
  | ClickAddToCart product => product ∈ products st
  | ChangeQuantity item _ => item ∈ cart st
  | ClickRemove item => item ∈ cart st
  | ClickPlaceOrder => (0 < length (cart st))%nat
  | ChangeCustomerName _ => showOrderForm st = true
  | ChangeDeliveryAddress _ => showOrderForm st = true
  | ClickPay _ _ => showOrderForm st = true
  end.

Section Page.
Context `{Host}.

Definition perform (a : Action) : Handler unit :=
  match a with
  | ClickAddToCart product => addToCart product
  | ChangeQuantity item value => quantity_onChange item value
  | ClickRemove item => removeFromCart (id item)
  | ClickPlaceOrder => setShowOrderForm true
  | ChangeCustomerName value => setCustomerName value
  | ChangeDeliveryAddress value => setDeliveryAddress value
  | ClickPay answer reply => handlePayment answer reply
  end.

(** One action after the other. *)
Fixpoint session (actions : list Action) : Handler unit :=
  match actions with
  | [] => mret ()
  | a :: rest => perform a;; session rest
  end.

(** Every action is offered by the page when its turn comes. *)
Fixpoint all_offered (actions : list Action) (b : Browser) : Prop :=
  match actions with
  | [] => True
  | a :: rest => offered (state b) a /\ all_offered rest (after (perform a) b)
  end.

End Page.

(** The request was answered by 201. *)
Definition answered_201 (reply : HttpReply) : bool :=
  match reply with
  | Response st => st =? 201
  | NetworkError => false
  end.

(** *** More invariants of the cart *)

(** The storage holds the cart: under ["cart"] is its serialization, or
    there is nothing and the cart is empty. *)
Definition in_sync `{Host} (b : Browser) : Prop :=
  localStorage b !! "cart" = Some (JSON_stringify (cart (state b))) \/
  (localStorage b !! "cart" = None /\ cart (state b) = []).

(** Between two browsers only the cart and what is stored under ["cart"]
    may differ. *)
Definition only_the_cart_changed (b b' : Browser) : Prop :=
  products (state b') = products (state b) /\
  showOrderForm (state b') = showOrderForm (state b) /\
  customerName (state b') = customerName (state b) /\
  deliveryAddress (state b') = deliveryAddress (state b) /\
  forall key : string, key <> "cart" -> localStorage b' !! key = localStorage b !! key.

(** The events are writes under ["cart"] and nothing else. *)
Definition only_writes_the_cart (evs : list Event) : Prop :=
  forall e : Event, e ∈ evs -> exists value : string, e = StorageSet "cart" value.

(** No quantity is below 1, as the guard of [updateQuantity] tests it. *)
Definition no_quantity_below_1 (c : list CartItem) : bool :=
  forallb (fun item => negb (lt (quantity item) 1%float)) c.

(** A number that is not NaN is [===] to itself. *)
Definition is_number (x : number) : bool := x === x.

(** The texts typed in quantity fields in the course of the actions all
    parse to a number. *)
Definition quantity_texts_are_numbers (actions : list Action) : bool :=
  forallb (fun a => match a with
                    | ChangeQuantity _ value => is_number (parseInt value)
                    | _ => true
                    end) actions.

(** Actions for the examples. *)
Definition sample_actions : list Action :=
  [ ClickAddToCart tea; ClickAddToCart mug; ClickAddToCart tea;
    ChangeQuantity {| fields := mug; quantity := 1%float |} "4";
    ClickPlaceOrder; ChangeCustomerName "Olha";
    ClickRemove {| fields := tea; quantity := 2%float |};
    ClickPay true (Response 500); ClickPay true (Response 201) ].

(** A parser for the examples: it knows the text of one cart. *)
Definition sample_parser (c : list CartItem) : Parser := {|
  JSON_parse := fun text =>
    if String.eqb text (@JSON_stringify sample_host c) then Some c else None
|}.

End App.

Import JS App.

(** ** The built-ins on known values *)

Example parseFloat_values :
  parseFloat "9.99" = (999 / 100)%float /\
  parseFloat "  -4.00abc" = (-4)%float /\
  parseFloat ".5e1" = 5%float /\
  parseFloat "5." = 5%float /\
  parseFloat "-Infinity" = neg_Infinity /\
  parseFloat "1e400" = Infinity /\
  parseFloat "9007199254740993" = 9007199254740992%float /\
  parseFloat "" = NaN /\ parseFloat "." = NaN /\ parseFloat "abc" = NaN.
Proof. repeat split. Qed.

Example parseInt_values :
  parseInt "3" = 3%float /\
  parseInt "12px" = 12%float /\
  parseInt " -7.9" = (-7)%float /\
  parseInt "0x1F" = 31%float /\
  parseInt "" = NaN /\ parseInt "-" = NaN /\ parseInt "abc" = NaN.
Proof. repeat split. Qed.

Example toFixed_values (large : number -> string) :
  toFixed large (parseFloat "1.005") 2 = "1.00" /\
  toFixed large (parseFloat "8.345") 2 = "8.35" /\
  toFixed large (parseFloat "2.5") 0 = "3" /\
  toFixed large (parseFloat "-0.004") 2 = "-0.00" /\
  toFixed large (parseFloat "1234.5678") 2 = "1234.57" /\
  toFixed large 0%float 2 = "0.00" /\
  toFixed large NaN 2 = "NaN" /\
  toFixed large Infinity 2 = "Infinity".
Proof. repeat split. Qed.

(** The cart of two lines at "10.00" twice and "5.50" once totals 25.5,
    shown as "25.50". *)
Example total_of_two_lines (large : number -> string) :
  let line (p : string) (q : number) : CartItem :=
    {| fields := {| id := q; name := ""; price := p; description := ""; stock := 1%float |};
       quantity := q |} in
  total [line "10.00" 2%float; line "5.50" 1%float] = 25.5%float /\
  toFixed large (total [line "10.00" 2%float; line "5.50" 1%float]) 2 = "25.50".
Proof. split; reflexivity. Qed.

(** ** Facts about binary64 comparisons and signs *)

Section Binary64.

Lemma SFcompare_antisym (x y : spec_float) :
  SFcompare y x = CompOpp <$> SFcompare x y.
Proof.
  destruct x as [sx|sx| |sx mx ex], y as [sy|sy| |sy my ey]; simpl;
    try reflexivity; try (destruct sx; reflexivity);
    try (destruct sy; reflexivity); try (destruct sx, sy; reflexivity).
  destruct sx, sy; simpl; try reflexivity; f_equal;
    rewrite (Z.compare_antisym ex ey);
    destruct (ex ?= ey)%Z; simpl; try reflexivity.
  all: pose proof (Pos.compare_cont_antisym mx my Eq) as E; simpl in E.
  all: change (PosDef.Pos.compare_cont Eq my mx) with (Pos.compare_cont Eq my mx).
  all: rewrite <- E; try rewrite CompOpp_involutive; reflexivity.
Qed.

(** [q >= 1] excludes [q < 1]. *)
Lemma ge_not_lt (a b : number) : ge a b = true -> lt a b = false.
Proof.
  unfold ge, lt. rewrite leb_spec, ltb_spec. unfold SFleb, SFltb.
  rewrite (SFcompare_antisym (Prim2SF b) (Prim2SF a)).
  destruct (SFcompare (Prim2SF b) (Prim2SF a)) as [[]|]; simpl; congruence.
Qed.

Lemma ge_zero_sf (x : number) : ge x 0%float = sf_nonneg (Prim2SF x).
Proof.
  unfold ge. rewrite leb_spec. unfold SFleb.
  change (Prim2SF 0%float) with (S754_zero false).
  destruct (Prim2SF x) as [s|[]| |[] m e]; reflexivity.
Qed.

Lemma lt_infinity_sf (x : number) :
  ge x 0%float = true -> lt x Infinity = true -> sf_finite (Prim2SF x) = true.
Proof.
  rewrite ge_zero_sf. unfold lt. rewrite ltb_spec. unfold SFltb.
  change (Prim2SF Infinity) with (S754_infinity false).
  destruct (Prim2SF x) as [s|[]| |[] m e]; simpl; congruence.
Qed.

Lemma iter_shr_1_nonneg (p : positive) (mrs : shr_record) :
  0 <= shr_m mrs -> 0 <= shr_m (SpecFloat.iter_pos shr_1 p mrs).
Proof.
  revert mrs.
  assert (H1 : forall mrs, 0 <= shr_m mrs -> 0 <= shr_m (shr_1 mrs)).
  { intros [[|[q|q|]|q] r s]; simpl; lia. }
  induction p as [p IH|p IH|]; simpl; intros mrs Hm; auto.
Qed.

Lemma shr_fexp_nonneg (m e : Z) (l : location) :
  0 <= m -> 0 <= shr_m (fst (shr_fexp prec emax m e l)).
Proof.
  intros Hm. unfold shr_fexp, shr.
  assert (H0 : 0 <= shr_m (shr_record_of_loc m l)).
  { destruct l as [|[]]; simpl; lia. }
  destruct (fexp prec emax (Zdigits2 m + e) - e); simpl; auto.
  now apply iter_shr_1_nonneg.
Qed.

(** Rounding a non-negative mantissa gives a number of the sign asked
    for, never NaN. *)
Lemma binary_round_aux_sign (m e : Z) (l : location) :
  0 <= m ->
  sf_nonneg (binary_round_aux prec emax false m e l) = true.
Proof.
  intros Hm. unfold binary_round_aux.
  pose proof (shr_fexp_nonneg m e l Hm) as H1.
  destruct (shr_fexp prec emax m e l) as [mrs1 e1]. simpl in H1.
  set (m2 := round_nearest_even (shr_m mrs1) (loc_of_shr_record mrs1)).
  assert (H2 : 0 <= m2).
  { unfold m2, round_nearest_even.
    destruct (loc_of_shr_record mrs1) as [|[]]; try lia.
    destruct (Z.even (shr_m mrs1)); lia. }
  pose proof (shr_fexp_nonneg m2 e1 loc_Exact H2) as H3.
  destruct (shr_fexp prec emax m2 e1 loc_Exact) as [mrs2 e2]. simpl in H3.
  destruct (shr_m mrs2) as [|q|q]; try reflexivity; [|lia].
  destruct (e2 <=? emax - prec); reflexivity.
Qed.

Lemma SFadd_nonneg (x y : spec_float) :
  sf_nonneg x = true -> sf_nonneg y = true ->
  sf_nonneg (SFadd prec emax x y) = true.
Proof.
  destruct x as [sx|[]| |[] mx ex], y as [sy|[]| |[] my ey]; simpl;
    try congruence; try (destruct sx; reflexivity);
    try (destruct sx, sy; reflexivity).
  intros _ _. unfold binary_round.
  destruct (shl_align _ _ _) as [mz ez].
  now apply binary_round_aux_sign.
Qed.

Lemma SFmul_nonneg (x y : spec_float) :
  sf_nonneg x = true -> sf_nonneg y = true ->
  sf_finite x = true -> sf_finite y = true ->
  sf_nonneg (SFmul prec emax x y) = true.
Proof.
  destruct x as [sx|[]| |[] mx ex], y as [sy|[]| |[] my ey]; simpl;
    try congruence; try reflexivity.
  intros _ _ _ _. now apply binary_round_aux_sign.
Qed.

(** The sum of two non-negative numbers is non-negative. *)
Lemma add_nonneg (a b : number) :
  ge a 0%float = true -> ge b 0%float = true -> ge (add a b) 0%float = true.
Proof.
  rewrite !ge_zero_sf. unfold add. rewrite add_spec. apply SFadd_nonneg.
Qed.

(** The product of two non-negative finite numbers is non-negative. *)
Lemma mul_nonneg (a b : number) :
  ge a 0%float = true -> lt a Infinity = true ->
  ge b 0%float = true -> lt b Infinity = true ->
  ge (mul a b) 0%float = true.
Proof.
  intros Ha Ha' Hb Hb'.
  pose proof (lt_infinity_sf a Ha Ha'). pose proof (lt_infinity_sf b Hb Hb').
  rewrite ge_zero_sf in *. unfold mul. rewrite mul_spec.
  now apply SFmul_nonneg.
Qed.

End Binary64.

(** ** Running the handlers *)

Section Runs.
Context `{Host}.

Lemma saveCart_run (c : list CartItem) (b : Browser) :
  saveCart c b =
  (Normal (),
   {| state := with_cart c (state b);
      localStorage := <["cart" := JSON_stringify c]> (localStorage b) |},
   [StorageSet "cart" (JSON_stringify c)]).
Proof. reflexivity. Qed.

Lemma addToCart_run (product : Product) (b : Browser) :
  addToCart product b =
  saveCart
    (match List.find (fun item : CartItem => id item === id product) (cart (state b)) with
     | Some _ =>
         (fun item : CartItem =>
            if id item === id product
            then {| fields := item; quantity := add (quantity item) 1%float |}
            else item) <$> cart (state b)
     | None => cart (state b) ++ [ {| fields := product; quantity := 1%float |} ]
     end) b.
Proof.
  unfold addToCart, mbind, handler_bind, render.
  destruct (List.find _ (cart (state b))); reflexivity.
Qed.

Lemma updateQuantity_run (id' quantity' : number) (b : Browser) :
  updateQuantity id' quantity' b =
  if lt quantity' 1%float then (Normal (), b, [])
  else saveCart
         ((fun item : CartItem =>
             if id item === id' then {| fields := item; quantity := quantity' |}
             else item) <$> cart (state b)) b.
Proof. unfold updateQuantity. destruct (lt quantity' 1%float); reflexivity. Qed.

Lemma removeFromCart_run (id' : number) (b : Browser) :
  removeFromCart id' b =
  saveCart (List.filter (fun item : CartItem => negb (id item === id')) (cart (state b))) b.
Proof. reflexivity. Qed.

End Runs.

(** ** Lists of cart lines *)

Section CartLists.

Lemma find_some_of_exists {A} (f : A -> bool) (l : list A) :
  (exists x, x ∈ l /\ f x = true) -> exists y, List.find f l = Some y.
Proof.
  induction l as [|a l IH]; intros [x [Hin Hf]].
  - inversion Hin.
  - simpl. destruct (f a) eqn:Ha; [eauto|].
    apply IH. exists x. split; [|assumption].
    inversion Hin; subst; [congruence|assumption].
Qed.

Lemma find_none_of_forall {A} (f : A -> bool) (l : list A) :
  (forall x, x ∈ l -> f x = false) -> List.find f l = None.
Proof.
  induction l as [|a l IH]; intros Hall; [reflexivity|].
  simpl. rewrite (Hall a) by constructor.
  apply IH. intros x Hx. apply Hall. now constructor.
Qed.

Lemma fmap_id_of_forall (f g : CartItem -> CartItem) (p : CartItem -> bool)
    (l : list CartItem) :
  (forall x, x ∈ l -> p x = false) ->
  (fun x => if p x then f x else x) <$> l = l.
Proof.
  induction l as [|a l IH]; intros Hall; [reflexivity|].
  rewrite fmap_cons, (Hall a) by constructor. f_equal.
  apply IH. intros x Hx. apply Hall. now constructor.
Qed.

Lemma filter_id_of_forall {A} (p : A -> bool) (l : list A) :
  (forall x, x ∈ l -> p x = true) -> List.filter p l = l.
Proof.
  induction l as [|a l IH]; intros Hall; [reflexivity|].
  simpl. rewrite (Hall a) by constructor. f_equal.
  apply IH. intros x Hx. apply Hall. now constructor.
Qed.

Lemma elem_of_bool_filter {A} (p : A -> bool) (l : list A) (x : A) :
  x ∈ List.filter p l <-> x ∈ l /\ p x = true.
Proof.
  rewrite !list_elem_of_In. apply filter_In.
Qed.

Lemma bool_filter_sublist {A} (p : A -> bool) (l : list A) :
  sublist (List.filter p l) l.
Proof.
  induction l as [|a l IH]; simpl; [constructor|].
  destruct (p a); now constructor.
Qed.

Lemma bool_filter_idemp {A} (p : A -> bool) (l : list A) :
  List.filter p (List.filter p l) = List.filter p l.
Proof.
  apply filter_id_of_forall. intros x Hx.
  now apply elem_of_bool_filter in Hx.
Qed.

(** [distinct_ids], position by position. *)
Lemma distinct_ids_lookup (c : list CartItem) :
  distinct_ids c = true <->
  forall (i j : nat) (x y : CartItem),
    (i < j)%nat -> c !! i = Some x -> c !! j = Some y -> (id x === id y) = false.
Proof.
  induction c as [|a c IH]; simpl.
  - split; [intros _ i j x y _ Hi; inversion Hi | reflexivity].
  - rewrite andb_true_iff, forallb_forall, IH. split.
    + intros [Ha Hc] i j x y Hij Hi Hj.
      destruct j as [|j]; [lia|]. simpl in Hj.
      destruct i as [|i]; simpl in Hi.
      * injection Hi as <-. apply negb_true_iff, Ha.
        apply list_elem_of_In, list_elem_of_lookup. eauto.
      * apply (Hc i j); [lia|assumption..].
    + intros Hall. split.
      * intros y Hy. apply list_elem_of_In, list_elem_of_lookup in Hy as [j Hj].
        apply negb_true_iff. now apply (Hall 0%nat (S j)); [lia|..].
      * intros i j x y Hij Hi Hj. apply (Hall (S i) (S j)); [lia|assumption..].
Qed.

Lemma distinct_ids_fmap (f : CartItem -> CartItem) (c : list CartItem) :
  (forall x, id (f x) = id x) ->
  distinct_ids (f <$> c) = distinct_ids c.
Proof.
  intros Hf. induction c as [|a c IH]; [reflexivity|].
  rewrite fmap_cons. simpl. rewrite IH. f_equal.
  clear IH. induction c as [|y c IH]; [reflexivity|].
  rewrite fmap_cons. simpl. now rewrite IH, !Hf.
Qed.

Lemma distinct_ids_filter (p : CartItem -> bool) (c : list CartItem) :
  distinct_ids c = true -> distinct_ids (List.filter p c) = true.
Proof.
  induction c as [|a c IH]; [reflexivity|].
  simpl. rewrite andb_true_iff. intros [Ha Hc].
  destruct (p a); [|auto]. simpl. rewrite IH by assumption.
  rewrite andb_true_r. rewrite forallb_forall in *.
  intros y Hy. apply Ha. now apply filter_In in Hy.
Qed.

Lemma distinct_ids_snoc (c : list CartItem) (n : CartItem) :
  distinct_ids c = true ->
  (forall x : CartItem, x ∈ c -> (id x === id n) = false) ->
  distinct_ids (c ++ [n]) = true.
Proof.
  induction c as [|a c IH]; [reflexivity|].
  simpl. rewrite !andb_true_iff. intros [Ha Hc] Hn. split.
  - rewrite forallb_app, Ha. simpl. rewrite (Hn a) by constructor. reflexivity.
  - apply IH; [assumption|]. intros x Hx. apply Hn. now constructor.
Qed.

End CartLists.

(** ** The cart handlers *)

(** C3: [updateQuantity(id, q)] with [q < 1] changes nothing and writes
    nothing; with [q >= 1] it gives quantity [q] to each line whose id is
    [===] to [id] and leaves the others; when no line has that id the cart
    is the same afterwards, and the call ends normally without an alert. *)
Theorem updateQuantity_rejects_or_replaces `{Host} (id' q : number) (b : Browser) :
  let c := cart (state b) in
  let c' := cart (state (after (updateQuantity id' q) b)) in
  (lt q 1%float = true ->
     after (updateQuantity id' q) b = b /\ events (updateQuantity id' q) b = []) /\
  (ge q 1%float = true ->
     length c' = length c /\
     forall (i : nat) (item : CartItem), c !! i = Some item ->
       c' !! i = Some (if id item === id' then {| fields := item; quantity := q |}
                       else item)) /\
  ((forall item : CartItem, item ∈ c -> (id item === id') = false) ->
     c' = c /\ completion (updateQuantity id' q) b = Normal () /\
     forall message : string, Alert message ∉ events (updateQuantity id' q) b).
Proof.
  unfold after, events, completion. rewrite updateQuantity_run. split; [|split].
  - intros Hlt. now rewrite Hlt.
  - intros Hge. rewrite (ge_not_lt _ _ Hge), saveCart_run. simpl. split.
    + now rewrite length_fmap.
    + intros i item Hi. now rewrite list_lookup_fmap, Hi.
  - intros Hnone. destruct (lt q 1%float).
    + split; [reflexivity|]. split; [reflexivity|].
      intros message Hin. inversion Hin.
    + rewrite saveCart_run. simpl. split; [|split; [reflexivity|]].
      * apply (fmap_id_of_forall (fun item => {| fields := item; quantity := q |})
                 (fun x => x) (fun item : CartItem => id item === id')).
        assumption.
      * intros message Hin. apply list_elem_of_singleton in Hin. discriminate.
Qed.

Lemma updateQuantity_rejects_or_replaces_witness :
  after (@updateQuantity sample_host 1%float 0%float)
        (browser_with [ {| fields := tea; quantity := 3%float |} ])
  = browser_with [ {| fields := tea; quantity := 3%float |} ] /\
  cart (state (after (@updateQuantity sample_host 1%float 5%float)
                     (browser_with [ {| fields := tea; quantity := 3%float |} ]))) !! 0%nat
  = Some {| fields := tea; quantity := 5%float |} /\
  cart (state (after (@updateQuantity sample_host 7%float 5%float)
                     (browser_with [ {| fields := tea; quantity := 3%float |} ])))
  = [ {| fields := tea; quantity := 3%float |} ].
Proof.
  split; [|split].
  - apply (@updateQuantity_rejects_or_replaces sample_host 1%float 0%float
             (browser_with [ {| fields := tea; quantity := 3%float |} ])).
    reflexivity.
  - destruct (@updateQuantity_rejects_or_replaces sample_host 1%float 5%float
                (browser_with [ {| fields := tea; quantity := 3%float |} ]))
      as (_ & Hrep & _).
    destruct Hrep as [_ Hrep]; [reflexivity|].
    apply (Hrep 0%nat {| fields := tea; quantity := 3%float |}). reflexivity.
  - destruct (@updateQuantity_rejects_or_replaces sample_host 7%float 5%float
                (browser_with [ {| fields := tea; quantity := 3%float |} ]))
      as (_ & _ & Hnone).
    apply Hnone. intros item Hin.
    apply list_elem_of_singleton in Hin. subst item. reflexivity.
Defined.

(** C6: a cart in which no two lines have the same product id stays so
    under [addToCart], [updateQuantity] and [removeFromCart]. *)
Theorem cart_handlers_keep_ids_distinct `{Host}
    (product : Product) (id' q : number) (b : Browser) :
  distinct_ids (cart (state b)) = true ->
  distinct_ids (cart (state (after (addToCart product) b))) = true /\
  distinct_ids (cart (state (after (updateQuantity id' q) b))) = true /\
  distinct_ids (cart (state (after (removeFromCart id') b))) = true.
Proof.
  intros Hd. unfold after.
  rewrite addToCart_run, updateQuantity_run, removeFromCart_run, !saveCart_run.
  split; [|split]; simpl.
  - destruct (List.find _ (cart (state b))) eqn:Hfind.
    + rewrite distinct_ids_fmap; [assumption|].
      intros x. now destruct (id x === id product).
    + apply distinct_ids_snoc; [assumption|].
      intros x Hx. apply list_elem_of_In in Hx.
      apply (find_none _ _ Hfind x Hx).
  - destruct (lt q 1%float); [assumption|]. simpl.
    rewrite distinct_ids_fmap; [assumption|].
    intros x. now destruct (id x === id').
  - now apply distinct_ids_filter.
Qed.

Lemma cart_handlers_keep_ids_distinct_witness :
  distinct_ids (cart (state (after (@addToCart sample_host mug)
    (browser_with [ {| fields := tea; quantity := 1%float |} ])))) = true /\
  distinct_ids (cart (state (after (@updateQuantity sample_host 1%float 4%float)
    (browser_with [ {| fields := tea; quantity := 1%float |} ])))) = true /\
  distinct_ids (cart (state (after (@removeFromCart sample_host 1%float)
    (browser_with [ {| fields := tea; quantity := 1%float |} ])))) = true.
Proof.
  apply (@cart_handlers_keep_ids_distinct sample_host mug 1%float 4%float
           (browser_with [ {| fields := tea; quantity := 1%float |} ])).
  reflexivity.
Defined.

(** C9: [removeFromCart(id)] keeps, in their order, exactly the lines whose
    id is not [===] to [id]; it leaves the cart as it is when there is no
    such line; and a second [removeFromCart(id)] changes nothing more, in
    the cart or in the storage. *)
Theorem removeFromCart_idempotent `{Host} (id' : number) (b : Browser) :
  let c := cart (state b) in
  let b1 := after (removeFromCart id') b in
  (forall item : CartItem,
     item ∈ cart (state b1) <-> item ∈ c /\ (id item === id') = false) /\
  sublist (cart (state b1)) c /\
  ((forall item : CartItem, item ∈ c -> (id item === id') = false) ->
     cart (state b1) = c) /\
  after (removeFromCart id') b1 = b1.
Proof.
  unfold after. rewrite !removeFromCart_run, !saveCart_run. simpl.
  split; [|split; [|split]].
  - intros item. rewrite elem_of_bool_filter, negb_true_iff. reflexivity.
  - apply bool_filter_sublist.
  - intros Hnone. apply filter_id_of_forall.
    intros x Hx. apply negb_true_iff. now apply Hnone.
  - rewrite bool_filter_idemp. unfold with_cart. simpl. f_equal.
    apply insert_insert_eq.
Qed.

Lemma removeFromCart_idempotent_witness :
  cart (state (after (@removeFromCart sample_host 2%float)
    (browser_with [ {| fields := tea; quantity := 1%float |} ])))
  = [ {| fields := tea; quantity := 1%float |} ].
Proof.
  destruct (@removeFromCart_idempotent sample_host 2%float
              (browser_with [ {| fields := tea; quantity := 1%float |} ]))
    as (_ & _ & Hnone & _).
  apply Hnone. intros item Hin.
  apply list_elem_of_singleton in Hin. subst item. reflexivity.
Defined.

(** C10: [updateQuantity] returns at once, with nothing changed and nothing
    written, exactly when [quantity < 1] is true.  It is false for NaN,
    which is what [parseInt] gives for an empty or non-numeric field: then
    each line whose id is [===] to [id] gets the quantity NaN, and the cart
    with that line is the one written under ["cart"]. *)
Theorem updateQuantity_guard_lets_NaN_through `{Host} (id' q : number) (b : Browser) :
  (updateQuantity id' q b = (Normal (), b, []) <-> lt q 1%float = true) /\
  lt NaN 1%float = false /\
  parseInt "" = NaN /\ parseInt "abc" = NaN /\
  let c := cart (state b) in
  let c' := cart (state (after (updateQuantity id' NaN) b)) in
  (forall (i : nat) (item : CartItem),
     c !! i = Some item -> (id item === id') = true ->
     c' !! i = Some {| fields := item; quantity := NaN |}) /\
  localStorage (after (updateQuantity id' NaN) b) !! "cart" = Some (JSON_stringify c') /\
  events (updateQuantity id' NaN) b = [StorageSet "cart" (JSON_stringify c')].
Proof.
  split; [|split; [|split; [|split]]]; try reflexivity.
  - rewrite updateQuantity_run. destruct (lt q 1%float); [tauto|].
    rewrite saveCart_run. split; [|discriminate]. intros Heq. inversion Heq.
  - unfold after, events. rewrite updateQuantity_run.
    change (lt NaN 1%float) with false. cbv iota. rewrite saveCart_run. simpl.
    split; [|split].
    + intros i item Hi Hid. rewrite list_lookup_fmap, Hi. simpl. now rewrite Hid.
    + apply lookup_insert_eq.
    + reflexivity.
Qed.

Lemma updateQuantity_guard_lets_NaN_through_witness :
  cart (state (after (@updateQuantity sample_host 1%float NaN)
    (browser_with [ {| fields := tea; quantity := 3%float |} ]))) !! 0%nat
  = Some {| fields := tea; quantity := NaN |}.
Proof.
  destruct (@updateQuantity_guard_lets_NaN_through sample_host 1%float NaN
              (browser_with [ {| fields := tea; quantity := 3%float |} ]))
    as (_ & _ & _ & _ & Hnan & _).
  apply (Hnan 0%nat {| fields := tea; quantity := 3%float |}); reflexivity.
Defined.

(** C7: the quantity field of a line is cleared.  [parseInt] of the empty
    text is NaN, [NaN < 1] is false, and the line, whose quantity was 1,
    is left with the quantity NaN, which is not at least 1. *)
Theorem quantity_onChange_empty_breaks_minimum :
  let item := {| fields := tea; quantity := 1%float |} in
  let b := browser_with [item] in
  let b' := after (@quantity_onChange sample_host item "") b in
  quantities_at_least_1 (cart (state b)) = true /\
  parseInt "" = NaN /\
  cart (state b') = [ {| fields := tea; quantity := NaN |} ] /\
  quantities_at_least_1 (cart (state b')) = false.
Proof. repeat split. Qed.

(** ** The order handler *)

Section Payment.
Context `{Host}.

Lemma handlePayment_declined_run (reply : HttpReply) (b : Browser) :
  handlePayment false reply b =
  (Normal (), b, [Confirm (confirm_message (state b)); Alert "Payment failed"]).
Proof. reflexivity. Qed.

(** The request is answered by 201. *)
Lemma handlePayment_created_run (b : Browser) :
  handlePayment true (Response 201) b =
  (Normal (), order_placed b,
   [Confirm (confirm_message (state b));
    Post order_url (orderData (state b)) true;
    Alert "Order placed successfully!";
    StorageRemove "cart"]).
Proof. reflexivity. Qed.

(** The request is answered by another 2xx status. *)
Lemma handlePayment_other_success_run (st : Z) (b : Browser) :
  validateStatus st = true -> st <> 201 ->
  handlePayment true (Response st) b =
  (Normal (), b,
   [Confirm (confirm_message (state b)); Post order_url (orderData (state b)) true]).
Proof.
  intros Hv Hst.
  unfold handlePayment, mbind, handler_bind, render, window_confirm, try_catch,
    axios_post. simpl.
  rewrite Hv. simpl. apply Z.eqb_neq in Hst. rewrite Hst. reflexivity.
Qed.

(** The request is answered by a status outside 2xx. *)
Lemma handlePayment_error_status_run (st : Z) (b : Browser) :
  validateStatus st = false ->
  handlePayment true (Response st) b =
  (Normal (), b,
   [Confirm (confirm_message (state b)); Post order_url (orderData (state b)) true;
    ConsoleError; Alert "Error creating order"]).
Proof.
  intros Hv.
  unfold handlePayment, mbind, handler_bind, render, window_confirm, try_catch,
    axios_post. simpl.
  rewrite Hv. reflexivity.
Qed.

(** The request gets no answer. *)
Lemma handlePayment_network_error_run (b : Browser) :
  handlePayment true NetworkError b =
  (Normal (), b,
   [Confirm (confirm_message (state b)); Post order_url (orderData (state b)) true;
    ConsoleError; Alert "Error creating order"]).
Proof. reflexivity. Qed.

(** Whatever the answer to the request, unless it is 201 the browser is
    left as it was. *)
Lemma handlePayment_not_created_unchanged (answer : bool) (reply : HttpReply) (b : Browser) :
  reply <> Response 201 -> after (handlePayment answer reply) b = b.
Proof.
  intros Hr. unfold after. destruct answer.
  - destruct reply as [st|].
    + destruct (validateStatus st) eqn:Hv.
      * rewrite handlePayment_other_success_run; [reflexivity|assumption|congruence].
      * now rewrite handlePayment_error_status_run.
    + reflexivity.
  - reflexivity.
Qed.

End Payment.

(** ** The text of [toFixed] *)

Section FixedText.

Lemma length_append (s1 s2 : string) :
  String.length (s1 ++ s2) = (String.length s1 + String.length s2)%nat.
Proof. induction s1 as [|c s1 IH]; simpl; [reflexivity|now rewrite IH]. Qed.

Lemma length_zeros (k : nat) : String.length (zeros k) = k.
Proof. induction k as [|k IH]; simpl; [reflexivity|now rewrite IH]. Qed.

Lemma length_substring (s : string) (n m : nat) :
  (n + m <= String.length s)%nat -> String.length (String.substring n m s) = m.
Proof.
  revert n m. induction s as [|c s IH]; intros n m Hle; simpl in Hle.
  - assert (n = 0%nat) by lia. assert (m = 0%nat) by lia. now subst.
  - destruct n as [|n]; simpl.
    + destruct m as [|m]; simpl; [reflexivity|]. rewrite (IH 0%nat m); [reflexivity|lia].
    + apply IH. lia.
Qed.

Lemma lt_not_ge (a b : number) : lt a b = true -> ge a b = false.
Proof.
  unfold ge, lt. rewrite leb_spec, ltb_spec. unfold SFleb, SFltb.
  rewrite (SFcompare_antisym (Prim2SF a) (Prim2SF b)).
  destruct (SFcompare (Prim2SF a) (Prim2SF b)) as [[]|]; simpl; congruence.
Qed.

End FixedText.

(** ** The order *)

Section Order.
Context `{Host}.

(** C8: when the user declines, [handlePayment] shows the dialog, then the
    alert "Payment failed", and ends: the browser (cart, storage, form) is
    as before and no request is among the events.  Whatever the answer, the
    dialog is the first event, so it is before any request. *)
Theorem handlePayment_declined (reply : HttpReply) (b : Browser) :
  handlePayment false reply b =
    (Normal (), b, [Confirm (confirm_message (state b)); Alert "Payment failed"]) /\
  (forall (url : string) (data : JsValue) (wc : bool),
     Post url data wc ∉ events (handlePayment false reply) b) /\
  forall answer : bool, exists rest : list Event,
    events (handlePayment answer reply) b = Confirm (confirm_message (state b)) :: rest.
Proof.
  split; [reflexivity|]. split.
  - intros url data wc Hin. unfold events in Hin. rewrite handlePayment_declined_run in Hin.
    simpl in Hin. apply list_elem_of_In in Hin. simpl in Hin.
    destruct Hin as [Hin|[Hin|[]]]; discriminate.
  - intros [|]; unfold events.
    + destruct reply as [st|].
      * destruct (validateStatus st) eqn:Hv.
        -- destruct (Z.eq_dec st 201) as [->|Hne].
           ++ rewrite handlePayment_created_run. eauto.
           ++ rewrite handlePayment_other_success_run by assumption. eauto.
        -- rewrite handlePayment_error_status_run by assumption. eauto.
      * rewrite handlePayment_network_error_run. eauto.
    + rewrite handlePayment_declined_run. eauto.
Qed.

(** C1, where the code falls short of it: the request is answered by 200.
    The promise resolves, the status is not 201, and [handlePayment] ends
    with the browser as it was and with no alert at all: neither success
    nor failure is signalled. *)
Theorem handlePayment_status_200_is_silent (b : Browser) :
  handlePayment true (Response 200) b =
    (Normal (), b,
     [Confirm (confirm_message (state b)); Post order_url (orderData (state b)) true]) /\
  forall message : string, Alert message ∉ events (handlePayment true (Response 200)) b.
Proof.
  split; [reflexivity|].
  intros message Hin. apply list_elem_of_In in Hin. simpl in Hin.
  destruct Hin as [Hin|[Hin|[]]]; discriminate.
Qed.

Lemma reduce_nonneg (c : list CartItem) (acc : number) :
  ge acc 0%float = true ->
  (forall item : CartItem, item ∈ c ->
     ge (parseFloat (price item)) 0%float = true /\
     lt (parseFloat (price item)) Infinity = true /\
     ge (quantity item) 0%float = true /\
     lt (quantity item) Infinity = true) ->
  ge (fold_left (fun sum (item : CartItem) =>
                   add sum (mul (parseFloat (price item)) (quantity item))) c acc)
     0%float = true.
Proof.
  revert acc. induction c as [|a c IH]; intros acc Hacc Hall; [assumption|].
  simpl. apply IH.
  - apply add_nonneg; [assumption|].
    destruct (Hall a) as (Hp & Hp' & Hq & Hq'); [constructor|].
    now apply mul_nonneg.
  - intros item Hin. apply Hall. now constructor.
Qed.

(** C4, the total: it is the sum of the amounts of the lines, each the
    parsed price times the quantity, added from the left to 0; it is at
    least 0 when every parsed price and every quantity is a finite number
    that is at least 0; it is 0 for the empty cart; for the cart of the
    scenario it is the number 33.97 and the body of the order has the
    [total] "33.97". *)
Theorem total_is_sum_of_line_amounts :
  (forall c : list CartItem, total c = sum_of (line_amount <$> c)) /\
  (forall c : list CartItem,
     (forall item : CartItem, item ∈ c ->
        ge (parseFloat (price item)) 0%float = true /\
        lt (parseFloat (price item)) Infinity = true /\
        ge (quantity item) 0%float = true /\
        lt (quantity item) Infinity = true) ->
     ge (total c) 0%float = true) /\
  total [] = 0%float /\
  total scenario_cart = parseFloat "33.97" /\
  forall st : AppState, cart st = scenario_cart ->
    get_property "total" (orderData st) = Some (JString "33.97").
Proof.
  split; [|split; [|split; [|split]]].
  - intros c. unfold total, sum_of. generalize 0%float.
    induction c as [|a c IH]; intros acc; [reflexivity|].
    rewrite fmap_cons. simpl. apply IH.
  - intros c Hall. unfold total. now apply reduce_nonneg.
  - reflexivity.
  - reflexivity.
  - intros st Hst. unfold orderData. rewrite Hst. reflexivity.
Qed.

End Order.

Lemma total_is_sum_of_line_amounts_witness :
  ge (total scenario_cart) 0%float = true /\
  get_property "total" (@orderData sample_host (state (browser_with scenario_cart)))
    = Some (JString "33.97").
Proof.
  destruct (@total_is_sum_of_line_amounts sample_host) as (_ & Hpos & _ & _ & Hscn).
  split.
  - apply Hpos. intros item Hin.
    apply list_elem_of_In in Hin. simpl in Hin.
    destruct Hin as [<-|[<-|[]]]; repeat split.
  - apply Hscn. reflexivity.
Defined.


(** C4 as it was stated fails: a line with the price "-5.00" makes the
    total negative. *)
Lemma total_negative_for_negative_price :
  total [refund_line] = (-5)%float /\ ge (total [refund_line]) 0%float = false.
Proof. split; reflexivity. Qed.

(** ** The first copy of the file *)

(** Its [handlePayment] ends the same way and leaves the same browser as
    the one of the second copy. *)
Lemma localhost_handlePayment_same_state `{Host}
    (answer : bool) (reply : HttpReply) (b : Browser) :
  after (Localhost.handlePayment answer reply) b = after (handlePayment answer reply) b /\
  completion (Localhost.handlePayment answer reply) b
    = completion (handlePayment answer reply) b.
Proof.
  unfold after, completion, Localhost.handlePayment, handlePayment, mbind,
    handler_bind, render, window_confirm, try_catch, axios_post.
  destruct answer; simpl; [|split; reflexivity].
  destruct reply as [st|]; [|split; reflexivity].
  destruct (validateStatus st); simpl; [|split; reflexivity].
  destruct (st =? 201); split; reflexivity.
Qed.

(** ** Adding 1 to a quantity *)

Section AddOne.

Lemma digits2_pos_size (p : positive) : digits2_pos p = Pos.size p.
Proof. induction p as [p IH|p IH|]; simpl; congruence. Qed.

Lemma digits2_pos_bounds (p : positive) :
  2 ^ (Zpos (digits2_pos p) - 1) <= Zpos p < 2 ^ Zpos (digits2_pos p).
Proof.
  rewrite digits2_pos_size.
  pose proof (Pos.size_gt p) as Hgt. pose proof (Pos.size_le p) as Hle.
  apply Pos2Z.pos_lt_pos in Hgt. apply Pos2Z.pos_le_pos in Hle.
  rewrite Pos2Z.inj_pow in Hgt, Hle. change (Zpos p~0) with (2 * Zpos p) in Hle.
  split; [|exact Hgt].
  replace (Zpos (Pos.size p)) with (Z.succ (Zpos (Pos.size p) - 1)) in Hle by lia.
  rewrite Z.pow_succ_r in Hle by lia. lia.
Qed.

Lemma shr_1_div2 (mrs : shr_record) :
  0 <= shr_m mrs -> shr_m (shr_1 mrs) = shr_m mrs / 2.
Proof.
  destruct mrs as [[|[q|q|]|q] r s]; simpl; intros Hm; try lia; try reflexivity.
  - apply (Z.div_unique _ _ _ 1); lia.
  - apply (Z.div_unique _ _ _ 0); lia.
Qed.

Lemma iter_shr_1_div (p : positive) (mrs : shr_record) :
  0 <= shr_m mrs ->
  shr_m (SpecFloat.iter_pos shr_1 p mrs) = shr_m mrs / 2 ^ Zpos p.
Proof.
  revert mrs. induction p as [p IH|p IH|]; intros mrs Hm; simpl SpecFloat.iter_pos.
  - pose proof (iter_shr_1_nonneg 1 mrs Hm) as H1. simpl in H1.
    pose proof (iter_shr_1_nonneg p _ H1) as H2.
    rewrite IH, IH, shr_1_div2 by assumption.
    rewrite !Z.div_div by lia. f_equal.
    rewrite Pos2Z.inj_xI, Z.pow_add_r, Z.pow_mul_r by lia.
    change (2 ^ 2) with 4. rewrite <- Z.pow_add_r by lia.
    replace (Zpos p + Zpos p) with (2 * Zpos p) by lia.
    rewrite Z.pow_mul_r by lia. change (2 ^ 2) with 4. change (2 ^ 1) with 2. lia.
  - pose proof (iter_shr_1_nonneg p _ Hm) as H2.
    rewrite IH, IH by assumption.
    rewrite !Z.div_div by lia. f_equal.
    rewrite <- Z.pow_add_r by lia. f_equal. lia.
  - rewrite shr_1_div2 by assumption. reflexivity.
Qed.

Lemma shr_fexp_positive (q : positive) (e : Z) (l : location) :
  SpecFloat.emin prec emax - e < Zpos (digits2_pos q) ->
  0 < shr_m (fst (shr_fexp prec emax (Zpos q) e l)) /\
  e <= snd (shr_fexp prec emax (Zpos q) e l) /\
  fexp prec emax (Zpos (digits2_pos q) + e) <= snd (shr_fexp prec emax (Zpos q) e l).
Proof.
  intros Hd. unfold shr_fexp, shr. simpl Zdigits2.
  assert (H0 : shr_m (shr_record_of_loc (Zpos q) l) = Zpos q).
  { destruct l as [|[]]; reflexivity. }
  pose proof (digits2_pos_bounds q) as [Hlo _].
  set (d := Zpos (digits2_pos q)) in *.
  destruct (fexp prec emax (d + e) - e) as [|p|p] eqn:Hn; simpl.
  - rewrite H0. lia.
  - rewrite iter_shr_1_div, H0 by (rewrite H0; lia).
    assert (Hp : Zpos p <= d - 1).
    { unfold fexp, SpecFloat.emin, prec, emax in Hn, Hd. lia. }
    split; [|lia].
    apply Z.div_str_pos. split; [apply Z.pow_pos_nonneg; lia|].
    etransitivity; [|exact Hlo]. apply Z.pow_le_mono_r; lia.
  - rewrite H0. lia.
Qed.

Lemma binary_round_aux_ge_one (q : positive) (e : Z) (l : location) :
  2 <= Zpos (digits2_pos q) + e ->
  SFleb sf_one (binary_round_aux prec emax false (Zpos q) e l) = true.
Proof.
  intros Hv. unfold binary_round_aux.
  destruct (shr_fexp_positive q e l) as (Hm1 & _ & He1).
  { unfold SpecFloat.emin, prec, emax. lia. }
  destruct (shr_fexp prec emax (Zpos q) e l) as [mrs1 e1]. simpl in Hm1, He1.
  assert (He1' : -51 <= e1).
  { unfold fexp, SpecFloat.emin, prec, emax in He1. lia. }
  set (m2 := round_nearest_even (shr_m mrs1) (loc_of_shr_record mrs1)).
  assert (Hm2 : 0 < m2).
  { unfold m2, round_nearest_even.
    destruct (loc_of_shr_record mrs1) as [|[]]; try lia.
    destruct (Z.even (shr_m mrs1)); lia. }
  destruct m2 as [|q2|q2]; try lia.
  destruct (shr_fexp_positive q2 e1 loc_Exact) as (Hm3 & He2 & _).
  { unfold SpecFloat.emin, prec, emax. lia. }
  destruct (shr_fexp prec emax (Zpos q2) e1 loc_Exact) as [mrs2 e2]. simpl in Hm3, He2.
  destruct (shr_m mrs2) as [|q3|q3]; try lia.
  destruct (e2 <=? emax - prec); [|reflexivity].
  assert (Hc : (-52 ?= e2) = Lt) by (apply Z.compare_lt_iff; lia).
  unfold SFleb, sf_one, SFcompare. now rewrite Hc.
Qed.

Lemma iter_xO_ge (p : positive) (d : positive) : (p <= Pos.iter xO p d)%positive.
Proof.
  apply (Pos.iter_invariant d positive xO (fun x => (p <= x)%positive)); [|lia].
  intros x Hx. lia.
Qed.

(** Adding 1 to a number that is at least 1 gives a number that is at
    least 1. *)
Lemma SFadd_one_ge_one (x : spec_float) :
  valid_binary x = true ->
  SFleb sf_one x = true ->
  SFleb sf_one (SFadd prec emax x sf_one) = true.
Proof.
  intros Hvalid Hle.
  destruct x as [s|[]| |[] mx ex]; try discriminate; try reflexivity.
  unfold SFleb, sf_one, SFcompare in Hle.
  simpl in Hvalid. unfold bounded, canonical_mantissa in Hvalid.
  apply andb_true_iff in Hvalid as [Hcanon _]. apply Z.eqb_eq in Hcanon.
  pose proof (digits2_pos_bounds mx) as [Hmx _].
  assert (Hex : -52 <= ex /\ 2 ^ 52 <= Zpos mx).
  { destruct (-52 ?= ex) eqn:Hc.
    - apply Z.compare_eq_iff in Hc. subst ex. split; [lia|].
      change (PosDef.Pos.compare_cont Eq 4503599627370496 mx)
        with (Pos.compare 4503599627370496 mx) in Hle.
      change (2 ^ 52) with (Zpos 4503599627370496).
      destruct (Pos.compare_spec 4503599627370496 mx); try discriminate; lia.
    - change (-52 < ex) in Hc. split; [lia|].
      unfold fexp, SpecFloat.emin, prec, emax in Hcanon.
      assert (Hd : Zpos (digits2_pos mx) = 53) by lia.
      rewrite Hd in Hmx. exact Hmx.
    - discriminate. }
  destruct Hex as [Hex Hm]. clear Hle Hcanon Hmx.
  unfold SFadd, sf_one. rewrite Z.min_r by lia.
  set (mx' := fst (shl_align mx ex (-52))).
  assert (Hmx' : 2 ^ 52 <= Zpos mx').
  { unfold mx', shl_align. destruct (-52 - ex) as [|d|d]; simpl; try exact Hm.
    pose proof (iter_xO_ge mx d). lia. }
  change (fst (shl_align 4503599627370496 (-52) (-52))) with 4503599627370496%positive.
  simpl cond_Zopp.
  change (Zpos mx' + 4503599627370496) with (Zpos (mx' + 4503599627370496)).
  unfold binary_normalize, binary_round.
  set (M := (mx' + 4503599627370496)%positive).
  assert (HM : 2 ^ 53 <= Zpos M).
  { unfold M. rewrite Pos2Z.inj_add. change (2 ^ 53) with (2 ^ 52 + 2 ^ 52).
    change (Zpos 4503599627370496) with (2 ^ 52). lia. }
  assert (Hd : 54 <= Zpos (digits2_pos M)).
  { pose proof (digits2_pos_bounds M) as [_ Hhi].
    destruct (Z.le_gt_cases 54 (Zpos (digits2_pos M))) as [|Hlt]; [assumption|].
    assert (2 ^ Zpos (digits2_pos M) <= 2 ^ 53) by (apply Z.pow_le_mono_r; lia). lia. }
  assert (Halign : shl_align M (-52) (fexp prec emax (Zpos (digits2_pos M) + -52)) = (M, -52)).
  { unfold shl_align.
    destruct (fexp prec emax (Zpos (digits2_pos M) + -52) - -52) as [|d|d] eqn:Hs;
      try reflexivity.
    unfold fexp, SpecFloat.emin, prec, emax in Hs. lia. }
  rewrite Halign. apply binary_round_aux_ge_one. lia.
Qed.

(** [q >= 1] gives [q + 1 >= 1]. *)
Lemma add_one_ge_one (q : number) :
  ge q 1%float = true -> ge (add q 1%float) 1%float = true.
Proof.
  unfold ge, add. rewrite !leb_spec, add_spec.
  change (Prim2SF 1%float) with sf_one.
  apply SFadd_one_ge_one, Prim2SF_valid.
Qed.

(** A number is below 1, at least 1, or NaN. *)
Lemma not_lt_one_cases (q : number) :
  lt q 1%float = false -> ge q 1%float = true \/ is_number q = false.
Proof.
  unfold lt, ge, is_number, strict_eq. rewrite ltb_spec, leb_spec, FloatAxioms.eqb_spec.
  unfold SFltb, SFleb, SFeqb.
  rewrite (SFcompare_antisym (Prim2SF q) (Prim2SF 1%float)).
  change (Prim2SF 1%float) with sf_one.
  destruct (Prim2SF q) as [s|[]| |[] m e];
    [simpl; auto; discriminate..|].
  unfold SFcompare, sf_one.
  destruct (e ?= -52)%Z;
    [destruct (PosDef.Pos.compare_cont Eq m 4503599627370496)|..];
    cbv [fmap option_fmap option_map CompOpp]; auto; discriminate.
Qed.

Lemma add_one_not_lt_one (q : number) :
  lt q 1%float = false -> lt (add q 1%float) 1%float = false.
Proof.
  intros Hq. destruct (not_lt_one_cases q Hq) as [Hge|Hnan].
  - apply ge_not_lt. now apply add_one_ge_one.
  - unfold is_number, strict_eq in Hnan. rewrite FloatAxioms.eqb_spec in Hnan.
    unfold lt, add. rewrite ltb_spec, add_spec.
    destruct (Prim2SF q) as [s|[]| |[] m e]; try discriminate Hnan; try reflexivity.
    all: exfalso; revert Hnan; unfold SFeqb, SFcompare.
    all: rewrite ?Z.compare_refl, ?Pos.compare_cont_refl; discriminate.
Qed.

End AddOne.

(** ** Sessions on the page *)

Section Sessions.
Context `{Host}.

Lemma forallb_fmap_if (P t : CartItem -> bool) (f : CartItem -> CartItem)
    (l : list CartItem) :
  (forall x, P x = true -> P (f x) = true) ->
  forallb P l = true ->
  forallb P ((fun x => if t x then f x else x) <$> l) = true.
Proof.
  intros Hf. induction l as [|a l IH]; [reflexivity|].
  rewrite fmap_cons. simpl. rewrite !andb_true_iff. intros [Ha Hl].
  split; [|auto]. destruct (t a); auto.
Qed.

Lemma forallb_bool_filter {A} (P t : A -> bool) (l : list A) :
  forallb P l = true -> forallb P (List.filter t l) = true.
Proof.
  induction l as [|a l IH]; [reflexivity|].
  simpl. rewrite andb_true_iff. intros [Ha Hl].
  destruct (t a); simpl; [rewrite Ha|]; auto.
Qed.

(** The browser after [handlePayment]: cleared by a 201 to a confirmed
    payment, as it was otherwise. *)
Lemma handlePayment_after (answer : bool) (reply : HttpReply) (b : Browser) :
  after (handlePayment answer reply) b =
  if answer && answered_201 reply then order_placed b else b.
Proof.
  destruct answer; [|reflexivity]. simpl.
  destruct reply as [st|]; [|reflexivity]. simpl.
  destruct (Z.eqb_spec st 201) as [->|Hne]; [reflexivity|].
  apply handlePayment_not_created_unchanged. congruence.
Qed.

Lemma handlePayment_completion (answer : bool) (reply : HttpReply) (b : Browser) :
  completion (handlePayment answer reply) b = Normal ().
Proof.
  unfold completion. destruct answer; [|reflexivity].
  destruct reply as [st|]; [|reflexivity].
  destruct (validateStatus st) eqn:Hv.
  - destruct (Z.eq_dec st 201) as [->|Hne]; [reflexivity|].
    now rewrite handlePayment_other_success_run.
  - now rewrite handlePayment_error_status_run.
Qed.

Lemma perform_completion (a : Action) (b : Browser) :
  completion (perform a) b = Normal ().
Proof.
  destruct a; simpl; try reflexivity.
  - unfold completion. now rewrite addToCart_run.
  - unfold completion, quantity_onChange. rewrite updateQuantity_run.
    now destruct (lt _ _).
  - apply handlePayment_completion.
Qed.

Lemma session_cons (a : Action) (rest : list Action) (b : Browser) :
  after (session (a :: rest)) b = after (session rest) (after (perform a) b).
Proof.
  pose proof (perform_completion a b) as Hc.
  unfold after, completion in *. simpl. unfold mbind, handler_bind.
  destruct (perform a b) as [[r b1] ev1]. simpl in *. subst r.
  now destruct (session rest b1) as [[r2 b2] ev2].
Qed.

(** An invariant of the browser kept by every action is kept by every
    session. *)
Lemma session_invariant (Inv : Browser -> Prop) (actions : list Action) :
  (forall a b, a ∈ actions -> Inv b -> Inv (after (perform a) b)) ->
  forall b, Inv b -> Inv (after (session actions) b).
Proof.
  induction actions as [|a rest IH]; intros Hstep b Hb; [exact Hb|].
  rewrite session_cons. apply IH.
  - intros a' b' Hin. apply Hstep. now constructor.
  - apply Hstep; [constructor|assumption].
Qed.

End Sessions.

(** ** What the cart handlers and the sessions keep *)

Section Kept.
Context `{Host}.

Lemma saveCart_only_the_cart (c : list CartItem) (b : Browser) :
  only_the_cart_changed b (after (saveCart c) b) /\
  only_writes_the_cart (events (saveCart c) b) /\
  in_sync (after (saveCart c) b).
Proof.
  unfold after, events. rewrite saveCart_run. simpl. split; [|split].
  - repeat split. intros key Hkey. simpl. now apply lookup_insert_ne.
  - intros e He. apply list_elem_of_singleton in He. eauto.
  - left. simpl. apply lookup_insert_eq.
Qed.

Lemma unchanged_only_the_cart (b : Browser) : only_the_cart_changed b b.
Proof. repeat split. Qed.

(** [addToCart], [updateQuantity] and [removeFromCart] end normally; they
    leave the products, the form and every storage key but ["cart"] as they
    were; and all they do to the outside is to write under ["cart"]: no
    alert, no request, no log. *)
Theorem cart_handlers_touch_only_the_cart
    (product : Product) (id' q : number) (b : Browser) :
  (only_the_cart_changed b (after (addToCart product) b) /\
   only_writes_the_cart (events (addToCart product) b) /\
   completion (addToCart product) b = Normal ()) /\
  (only_the_cart_changed b (after (updateQuantity id' q) b) /\
   only_writes_the_cart (events (updateQuantity id' q) b) /\
   completion (updateQuantity id' q) b = Normal ()) /\
  (only_the_cart_changed b (after (removeFromCart id') b) /\
   only_writes_the_cart (events (removeFromCart id') b) /\
   completion (removeFromCart id') b = Normal ()).
Proof.
  split; [|split].
  - unfold after, events, completion. rewrite addToCart_run.
    destruct (saveCart_only_the_cart
                (match List.find (fun item : CartItem => id item === id product)
                         (cart (state b)) with
                 | Some _ =>
                     (fun item : CartItem =>
                        if id item === id product
                        then {| fields := item; quantity := add (quantity item) 1%float |}
                        else item) <$> cart (state b)
                 | None => cart (state b) ++ [ {| fields := product; quantity := 1%float |} ]
                 end) b) as (H1 & H2 & _).
    split; [exact H1|]. split; [exact H2|reflexivity].
  - unfold after, events, completion. rewrite updateQuantity_run.
    destruct (lt q 1%float).
    + split; [apply unchanged_only_the_cart|]. split; [|reflexivity].
      intros e He. inversion He.
    + destruct (saveCart_only_the_cart
                  ((fun item : CartItem =>
                      if id item === id' then {| fields := item; quantity := q |}
                      else item) <$> cart (state b)) b) as (H1 & H2 & _).
      split; [exact H1|]. split; [exact H2|reflexivity].
  - unfold after, events, completion. rewrite removeFromCart_run.
    destruct (saveCart_only_the_cart
                (List.filter (fun item : CartItem => negb (id item === id'))
                   (cart (state b))) b) as (H1 & H2 & _).
    split; [exact H1|]. split; [exact H2|reflexivity].
Qed.

(** Every action keeps the storage in step with the cart. *)
Lemma perform_keeps_in_sync (a : Action) (b : Browser) :
  in_sync b -> in_sync (after (perform a) b).
Proof.
  intros Hb. destruct a as [p|item v|item| | | |answer reply]; cbn [perform]; try exact Hb.
  - unfold after. rewrite addToCart_run. apply saveCart_only_the_cart.
  - unfold after, quantity_onChange. rewrite updateQuantity_run.
    destruct (lt _ _); [exact Hb|]. apply saveCart_only_the_cart.
  - unfold after. rewrite removeFromCart_run. apply saveCart_only_the_cart.
  - rewrite handlePayment_after.
    destruct (answer && answered_201 reply); [|exact Hb].
    right. split; [apply lookup_delete_eq|reflexivity].
Qed.

(** Whatever is done on the page, in any order and with any answers, the
    storage stays in step with the cart: after every session that starts
    with the two in step, ["cart"] holds the serialization of the cart, or
    nothing while the cart is empty. *)
Theorem session_keeps_in_sync (actions : list Action) (b : Browser) :
  in_sync b -> in_sync (after (session actions) b).
Proof.
  apply (session_invariant in_sync). intros a b' _. apply perform_keeps_in_sync.
Qed.

Lemma perform_keeps_ids_distinct (a : Action) (b : Browser) :
  distinct_ids (cart (state b)) = true ->
  distinct_ids (cart (state (after (perform a) b))) = true.
Proof.
  intros Hd. destruct a as [p|item v|item| | | |answer reply]; cbn [perform]; try exact Hd.
  - unfold after. rewrite addToCart_run, saveCart_run. simpl.
    destruct (List.find _ (cart (state b))) eqn:Hfind.
    + rewrite distinct_ids_fmap; [assumption|].
      intros x. now destruct (id x === id p).
    + apply distinct_ids_snoc; [assumption|].
      intros x Hx. apply list_elem_of_In in Hx.
      apply (find_none _ _ Hfind x Hx).
  - unfold after, quantity_onChange. rewrite updateQuantity_run.
    destruct (lt _ _); [assumption|]. rewrite saveCart_run. simpl.
    rewrite distinct_ids_fmap; [assumption|].
    intros x. now destruct (id x === id item).
  - unfold after. rewrite removeFromCart_run, saveCart_run. simpl.
    now apply distinct_ids_filter.
  - rewrite handlePayment_after.
    destruct (answer && answered_201 reply); [reflexivity|exact Hd].
Qed.

(** Whatever is done on the page, no two lines of the cart get the same
    product id. *)
Theorem session_keeps_ids_distinct (actions : list Action) (b : Browser) :
  distinct_ids (cart (state b)) = true ->
  distinct_ids (cart (state (after (session actions) b))) = true.
Proof.
  apply (session_invariant (fun b => distinct_ids (cart (state b)) = true)).
  intros a b' _. apply perform_keeps_ids_distinct.
Qed.

Lemma perform_never_below_1 (a : Action) (b : Browser) :
  no_quantity_below_1 (cart (state b)) = true ->
  no_quantity_below_1 (cart (state (after (perform a) b))) = true.
Proof.
  unfold no_quantity_below_1.
  intros Hq. destruct a as [p|item v|item| | | |answer reply]; cbn [perform]; try exact Hq.
  - unfold after. rewrite addToCart_run, saveCart_run. simpl.
    destruct (List.find _ (cart (state b))).
    + apply (forallb_fmap_if _ (fun item : CartItem => id item === id p)
               (fun item => {| fields := item; quantity := add (quantity item) 1%float |}));
        [|assumption].
      intros x Hx. simpl. apply negb_true_iff in Hx. apply negb_true_iff.
      now apply add_one_not_lt_one.
    + rewrite forallb_app, Hq. reflexivity.
  - unfold after, quantity_onChange. rewrite updateQuantity_run.
    destruct (lt (parseInt v) 1%float) eqn:Hlt; [assumption|].
    rewrite saveCart_run. simpl.
    apply (forallb_fmap_if _ (fun x : CartItem => id x === id item)
             (fun x => {| fields := x; quantity := parseInt v |})); [|assumption].
    intros x _. simpl. now rewrite Hlt.
  - unfold after. rewrite removeFromCart_run, saveCart_run. simpl.
    now apply forallb_bool_filter.
  - rewrite handlePayment_after.
    destruct (answer && answered_201 reply); [reflexivity|exact Hq].
Qed.

(** Whatever is done on the page, no quantity gets below 1, in the sense
    of the guard: [quantity < 1] stays false for every line. *)
Theorem session_never_below_1 (actions : list Action) (b : Browser) :
  no_quantity_below_1 (cart (state b)) = true ->
  no_quantity_below_1 (cart (state (after (session actions) b))) = true.
Proof.
  apply (session_invariant (fun b => no_quantity_below_1 (cart (state b)) = true)).
  intros a b' _. apply perform_never_below_1.
Qed.

Lemma perform_keeps_minimum (a : Action) (b : Browser) :
  quantity_texts_are_numbers [a] = true ->
  quantities_at_least_1 (cart (state b)) = true ->
  quantities_at_least_1 (cart (state (after (perform a) b))) = true.
Proof.
  unfold quantities_at_least_1.
  intros Ha Hq. destruct a as [p|item v|item| | | |answer reply]; cbn [perform]; try exact Hq.
  - unfold after. rewrite addToCart_run, saveCart_run. simpl.
    destruct (List.find _ (cart (state b))).
    + apply (forallb_fmap_if _ (fun item : CartItem => id item === id p)
               (fun item => {| fields := item; quantity := add (quantity item) 1%float |}));
        [|assumption].
      intros x Hx. simpl. now apply add_one_ge_one.
    + rewrite forallb_app, Hq. reflexivity.
  - unfold after, quantity_onChange. rewrite updateQuantity_run.
    destruct (lt (parseInt v) 1%float) eqn:Hlt; [assumption|].
    rewrite saveCart_run. simpl.
    apply (forallb_fmap_if _ (fun x : CartItem => id x === id item)
             (fun x => {| fields := x; quantity := parseInt v |})); [|assumption].
    intros x _. simpl. simpl in Ha. rewrite andb_true_r in Ha.
    destruct (not_lt_one_cases _ Hlt) as [Hge|Hnan]; [exact Hge|congruence].
  - unfold after. rewrite removeFromCart_run, saveCart_run. simpl.
    now apply forallb_bool_filter.
  - rewrite handlePayment_after.
    destruct (answer && answered_201 reply); [reflexivity|exact Hq].
Qed.

(** As long as every text typed in a quantity field parses to a number,
    whatever is done on the page keeps every quantity at least 1. *)
Theorem session_keeps_minimum_for_numbers (actions : list Action) (b : Browser) :
  quantity_texts_are_numbers actions = true ->
  quantities_at_least_1 (cart (state b)) = true ->
  quantities_at_least_1 (cart (state (after (session actions) b))) = true.
Proof.
  unfold quantity_texts_are_numbers. rewrite forallb_forall. intros Htexts.
  apply (session_invariant (fun b => quantities_at_least_1 (cart (state b)) = true)).
  intros a b' Hin. apply perform_keeps_minimum. simpl.
  rewrite andb_true_r. apply Htexts. now apply list_elem_of_In.
Qed.

End Kept.

Lemma session_keeps_in_sync_witness :
  @in_sync sample_host
    (after (@session sample_host sample_actions)
           (browser_with [ {| fields := tea; quantity := 1%float |} ])).
Proof.
  apply (@session_keeps_in_sync sample_host sample_actions
           (browser_with [ {| fields := tea; quantity := 1%float |} ])).
  left. reflexivity.
Defined.

Lemma session_keeps_ids_distinct_witness :
  distinct_ids (cart (state (after (@session sample_host sample_actions)
    (browser_with [ {| fields := tea; quantity := 1%float |} ])))) = true.
Proof.
  apply (@session_keeps_ids_distinct sample_host sample_actions
           (browser_with [ {| fields := tea; quantity := 1%float |} ])).
  reflexivity.
Defined.

Lemma session_never_below_1_witness :
  no_quantity_below_1 (cart (state (after
    (@session sample_host
       [ChangeQuantity {| fields := tea; quantity := 1%float |} ""; ClickAddToCart tea])
    (browser_with [ {| fields := tea; quantity := 1%float |} ])))) = true.
Proof.
  apply (@session_never_below_1 sample_host
           [ChangeQuantity {| fields := tea; quantity := 1%float |} ""; ClickAddToCart tea]
           (browser_with [ {| fields := tea; quantity := 1%float |} ])).
  reflexivity.
Defined.

Lemma session_keeps_minimum_for_numbers_witness :
  quantities_at_least_1 (cart (state (after (@session sample_host sample_actions)
    (browser_with [ {| fields := tea; quantity := 1%float |} ])))) = true.
Proof.
  apply (@session_keeps_minimum_for_numbers sample_host sample_actions
           (browser_with [ {| fields := tea; quantity := 1%float |} ]));
    reflexivity.
Defined.

(** ** The start of the page *)

Section Start.
Context `{Host} `{Parser}.

Lemma loadCart_run (b : Browser) :
  loadCart b =
  match localStorage b !! "cart" with
  | Some text =>
      if String.eqb text "" then (Normal (), b, [])
      else match JSON_parse text with
           | Some c =>
               (Normal (),
                {| state := with_cart c (state b); localStorage := localStorage b |}, [])
           | None => (Throw, b, [])
           end
  | None => (Normal (), b, [])
  end.
Proof.
  unfold loadCart, mbind, handler_bind, localStorage_getItem, JSON_parse_or_throw.
  destruct (localStorage b !! "cart") as [text|]; simpl; [|reflexivity].
  destruct (String.eqb text ""); simpl; [reflexivity|].
  destruct (JSON_parse text); reflexivity.
Qed.

Lemma reload_of_in_sync (b : Browser) :
  in_sync b ->
  JSON_parse (JSON_stringify (cart (state b))) = Some (cart (state b)) ->
  JSON_stringify (cart (state b)) <> "" ->
  cart (state (after loadCart (fresh_page (localStorage b)))) = cart (state b) /\
  completion loadCart (fresh_page (localStorage b)) = Normal ().
Proof.
  intros Hsync Hparse Htext. unfold after, completion. rewrite loadCart_run. simpl.
  destruct Hsync as [Hs|[Hs Hc]]; rewrite Hs.
  - destruct (String.eqb_spec (JSON_stringify (cart (state b))) ""); [contradiction|].
    rewrite Hparse. split; reflexivity.
  - rewrite Hc. split; reflexivity.
Qed.

(** After any session that starts with the storage in step with the cart,
    a page that starts over the storage loads the cart the session ended
    with, provided [JSON.parse] gives back that cart from its
    serialization. *)
Theorem session_then_reload (actions : list Action) (b : Browser) :
  let b' := after (session actions) b in
  in_sync b ->
  JSON_parse (JSON_stringify (cart (state b'))) = Some (cart (state b')) ->
  JSON_stringify (cart (state b')) <> "" ->
  cart (state (after loadCart (fresh_page (localStorage b')))) = cart (state b') /\
  completion loadCart (fresh_page (localStorage b')) = Normal ().
Proof.
  intros b' Hsync Hparse Htext.
  apply reload_of_in_sync; [|assumption..].
  apply (session_invariant in_sync); [|assumption].
  intros a b0 _. apply perform_keeps_in_sync.
Qed.

End Start.

Lemma session_then_reload_witness :
  cart (state (after (@loadCart (sample_parser [ {| fields := mug; quantity := 1%float |} ]))
    (fresh_page (localStorage (after
       (@session sample_host [ClickAddToCart mug])
       (browser_with []))))))
  = [ {| fields := mug; quantity := 1%float |} ].
Proof.
  apply (@session_then_reload sample_host
           (sample_parser [ {| fields := mug; quantity := 1%float |} ])
           [ClickAddToCart mug] (browser_with [])).
  - left. reflexivity.
  - reflexivity.
  - discriminate.
Defined.

(** ** Operations on the cart, one after the other *)

Section Composition.
Context `{Host}.

Lemma fmap_replace_twice (id' q1 q2 : number) (c : list CartItem) :
  (fun item : CartItem =>
     if id item === id' then {| fields := item; quantity := q2 |} else item) <$>
  ((fun item : CartItem =>
      if id item === id' then {| fields := item; quantity := q1 |} else item) <$> c)
  = (fun item : CartItem =>
       if id item === id' then {| fields := item; quantity := q2 |} else item) <$> c.
Proof.
  induction c as [|a c IH]; [reflexivity|].
  rewrite !fmap_cons, IH. f_equal.
  destruct (id a === id') eqn:Ha; simpl; now rewrite Ha.
Qed.

(** Of two accepted [updateQuantity] on the same id the last one wins: the
    browser is the one the second call alone would leave. *)
Theorem updateQuantity_last_wins (id' q1 q2 : number) (b : Browser) :
  lt q1 1%float = false -> lt q2 1%float = false ->
  after (updateQuantity id' q2) (after (updateQuantity id' q1) b)
  = after (updateQuantity id' q2) b.
Proof.
  intros H1 H2. unfold after.
  rewrite !updateQuantity_run, H1, H2, !saveCart_run. simpl.
  unfold with_cart. simpl. f_equal.
  - f_equal.
    apply fmap_replace_twice.
  - rewrite insert_insert_eq. f_equal. f_equal.
    apply fmap_replace_twice.
Qed.

Lemma filter_snoc_new (id' : number) (c : list CartItem) (n : CartItem) :
  (forall item : CartItem, item ∈ c -> (id item === id') = false) ->
  (id n === id') = true ->
  List.filter (fun item : CartItem => negb (id item === id')) (c ++ [n]) = c.
Proof.
  intros Hc Hn. rewrite List.filter_app. simpl. rewrite Hn. simpl.
  rewrite app_nil_r. apply filter_id_of_forall.
  intros x Hx. apply negb_true_iff. now apply Hc.
Qed.

(** Adding a product that has no line yet and removing it again gives the
    cart back, when the product's id is a number. *)
Theorem addToCart_then_removeFromCart (product : Product) (b : Browser) :
  (forall item : CartItem, item ∈ cart (state b) -> (id item === id product) = false) ->
  is_number (id product) = true ->
  cart (state (after (removeFromCart (id product)) (after (addToCart product) b)))
  = cart (state b) /\
  only_the_cart_changed b (after (removeFromCart (id product)) (after (addToCart product) b)) /\
  in_sync (after (removeFromCart (id product)) (after (addToCart product) b)).
Proof.
  intros Hnew Hid. unfold after.
  rewrite removeFromCart_run, addToCart_run, !saveCart_run. simpl.
  rewrite (find_none_of_forall _ _ Hnew).
  rewrite (filter_snoc_new (id product) (cart (state b))
             {| fields := product; quantity := 1%float |} Hnew Hid).
  split; [reflexivity|]. split.
  - repeat split. intros key Hkey. simpl.
    now rewrite !lookup_insert_ne by congruence.
  - left. simpl. apply lookup_insert_eq.
Qed.

Lemma bool_filter_comm {A} (p q : A -> bool) (l : list A) :
  List.filter p (List.filter q l) = List.filter q (List.filter p l).
Proof.
  induction l as [|a l IH]; [reflexivity|].
  simpl. destruct (p a) eqn:Hp, (q a) eqn:Hq; simpl; rewrite ?Hp, ?Hq, IH; reflexivity.
Qed.

(** Two [removeFromCart] give the same browser in either order. *)
Theorem removeFromCart_commutes (id1 id2 : number) (b : Browser) :
  after (removeFromCart id1) (after (removeFromCart id2) b)
  = after (removeFromCart id2) (after (removeFromCart id1) b).
Proof.
  unfold after. rewrite !removeFromCart_run, !saveCart_run. simpl.
  unfold with_cart. simpl.
  rewrite !insert_insert_eq.
  rewrite (bool_filter_comm (fun item : CartItem => negb (id item === id1))
             (fun item : CartItem => negb (id item === id2))).
  reflexivity.
Qed.

End Composition.

Lemma updateQuantity_last_wins_witness :
  after (@updateQuantity sample_host 1%float 5%float)
    (after (@updateQuantity sample_host 1%float 2%float)
       (browser_with [ {| fields := tea; quantity := 3%float |} ]))
  = after (@updateQuantity sample_host 1%float 5%float)
      (browser_with [ {| fields := tea; quantity := 3%float |} ]).
Proof.
  apply (@updateQuantity_last_wins sample_host 1%float 2%float 5%float
           (browser_with [ {| fields := tea; quantity := 3%float |} ]));
    reflexivity.
Defined.

Lemma addToCart_then_removeFromCart_witness :
  cart (state (after (@removeFromCart sample_host (id mug))
    (after (@addToCart sample_host mug)
       (browser_with [ {| fields := tea; quantity := 3%float |} ]))))
  = [ {| fields := tea; quantity := 3%float |} ].
Proof.
  apply (@addToCart_then_removeFromCart sample_host mug
           (browser_with [ {| fields := tea; quantity := 3%float |} ])).
  - intros item Hin. apply list_elem_of_singleton in Hin. subst item. reflexivity.
  - reflexivity.
Defined.

(** ** More on the order *)

Section MoreOrder.
Context `{Host}.

(** The events of [handlePayment], case by case. *)
Lemma handlePayment_events (answer : bool) (reply : HttpReply) (b : Browser) :
  events (handlePayment answer reply) b =
  Confirm (confirm_message (state b)) ::
  (if answer then
     Post order_url (orderData (state b)) true ::
     match reply with
     | Response st =>
         if validateStatus st
         then (if st =? 201
               then [Alert "Order placed successfully!"; StorageRemove "cart"]
               else [])
         else [ConsoleError; Alert "Error creating order"]
     | NetworkError => [ConsoleError; Alert "Error creating order"]
     end
   else [Alert "Payment failed"]).
Proof.
  unfold events. destruct answer; [|reflexivity].
  destruct reply as [st|]; [|reflexivity].
  destruct (validateStatus st) eqn:Hv.
  - destruct (Z.eqb_spec st 201) as [->|Hne]; [reflexivity|].
    now rewrite handlePayment_other_success_run.
  - now rewrite handlePayment_error_status_run.
Qed.

(** The amount the user is asked to confirm is the text sent as the
    [total] of the order. *)
Theorem confirmation_shows_posted_total (reply : HttpReply) (b : Browser) :
  exists (amount : string) (data : JsValue) (rest : list Event),
    events (handlePayment true reply) b =
      Confirm ("Payment simulation: confirm the payment of " ++ amount ++ " PLN")
      :: Post order_url data true :: rest /\
    get_property "total" data = Some (JString amount).
Proof.
  rewrite handlePayment_events.
  exists (toFixed Number_toString_large (total (cart (state b))) 2), (orderData (state b)).
  eexists. split; reflexivity.
Qed.

(** [handlePayment] never throws, whatever the answers; it sends at most
    one request; it never writes to the storage, and removes only ["cart"]
    and only after a confirmed payment answered by 201; it never changes
    the products. *)
Theorem handlePayment_does_no_more (answer : bool) (reply : HttpReply) (b : Browser) :
  let evs := events (handlePayment answer reply) b in
  completion (handlePayment answer reply) b = Normal () /\
  (forall key value : string, StorageSet key value ∉ evs) /\
  (forall key : string, StorageRemove key ∈ evs ->
     key = "cart" /\ answer = true /\ reply = Response 201) /\
  (forall (i j : nat) (u u' : string) (d d' : JsValue) (w w' : bool),
     evs !! i = Some (Post u d w) -> evs !! j = Some (Post u' d' w') -> i = j) /\
  products (state (after (handlePayment answer reply) b)) = products (state b).
Proof.
  intros evs. split; [apply handlePayment_completion|].
  assert (Hshape : exists tail : list Event,
            evs = Confirm (confirm_message (state b)) :: tail /\
            (tail = [Alert "Payment failed"] \/
             (exists post, tail = [post] /\ exists u d w, post = Post u d w) \/
             (exists post, tail = [post; ConsoleError; Alert "Error creating order"] /\
                           exists u d w, post = Post u d w) \/
             (exists post, tail = [post; Alert "Order placed successfully!";
                                   StorageRemove "cart"] /\
                           (exists u d w, post = Post u d w) /\
                           answer = true /\ reply = Response 201))).
  { unfold evs. rewrite handlePayment_events. eexists. split; [reflexivity|].
    destruct answer; [|now left]. right.
    destruct reply as [st|]; [|right; left; eauto 8].
    destruct (validateStatus st); [|right; left; eauto 8].
    destruct (Z.eqb_spec st 201) as [->|Hne]; [right; right; eauto 10|left; eauto 8]. }
  destruct Hshape as (tail & -> & Htail).
  split; [|split; [|split]].
  - intros key value Hin.
    destruct Htail as [->|[(p & -> & u & d & w & ->)|[(p & -> & u & d & w & ->)|
                       (p & -> & (u & d & w & ->) & _)]]];
      apply list_elem_of_In in Hin; simpl in Hin;
      repeat (destruct Hin as [Hin|Hin]; [discriminate|]); exact Hin.
  - intros key Hin.
    destruct Htail as [->|[(p & -> & u & d & w & ->)|[(p & -> & u & d & w & ->)|
                       (p & -> & (u & d & w & ->) & Ha & Hr)]]];
      apply list_elem_of_In in Hin; simpl in Hin;
      repeat (destruct Hin as [Hin|Hin]; [try discriminate|]); try contradiction.
    injection Hin as <-. auto.
  - intros i j u0 u' d0 d' w0 w' Hi Hj.
    destruct Htail as [->|[(p & -> & u & d & w & ->)|[(p & -> & u & d & w & ->)|
                       (p & -> & (u & d & w & ->) & _)]]];
      repeat (destruct i as [|i]; simpl in Hi; try discriminate);
      repeat (destruct j as [|j]; simpl in Hj; try discriminate); reflexivity.
  - rewrite handlePayment_after. now destruct (answer && answered_201 reply).
Qed.

(** The order form stays open when the last line of the cart is removed,
    so an order with no line can be paid: add a product, open the form,
    remove the line, pay.  Every step is offered by the page, and the
    request carries no item and the total "0.00". *)
Theorem empty_order_can_be_paid (product : Product) (reply : HttpReply) (b : Browser) :
  product ∈ products (state b) ->
  cart (state b) = [] ->
  is_number (id product) = true ->
  let line := {| fields := product; quantity := 1%float |} in
  let actions := [ClickAddToCart product; ClickPlaceOrder; ClickRemove line] in
  let b' := after (session actions) b in
  all_offered (actions ++ [ClickPay true reply]) b /\
  cart (state b') = [] /\
  get_property "items" (orderData (state b')) = Some (JArray []) /\
  get_property "total" (orderData (state b')) = Some (JString "0.00") /\
  exists rest : list Event,
    events (handlePayment true reply) b' =
      Confirm (confirm_message (state b')) :: Post order_url (orderData (state b')) true :: rest.
Proof.
  intros Hin Hcart Hid line actions b'.
  assert (H1 : cart (state (after (addToCart product) b)) = [line]).
  { unfold after. rewrite addToCart_run, saveCart_run, Hcart. reflexivity. }
  assert (Hb' : cart (state b') = []).
  { unfold b', actions. rewrite !session_cons. cbn [perform session].
    unfold after at 1 2. rewrite removeFromCart_run, saveCart_run. simpl.
    fold (after (addToCart product) b). rewrite H1. simpl.
    unfold is_number in Hid. now rewrite Hid. }
  split; [|split; [exact Hb'|]].
  - simpl. split; [exact Hin|]. split; [rewrite H1; simpl; lia|].
    split; [simpl; rewrite H1; constructor|]. split; [reflexivity|exact I].
  - clearbody b'. rewrite handlePayment_events. unfold orderData. rewrite Hb'.
    split; [reflexivity|]. split; [reflexivity|]. eauto.
Qed.

(** After a placed order all the page offers is to add products: the cart
    is empty, the form is closed, and nothing is left under ["cart"]. *)
Theorem placed_order_leaves_a_fresh_cart (b : Browser) :
  let b' := after (handlePayment true (Response 201)) b in
  (forall a : Action, offered (state b') a -> exists product : Product, a = ClickAddToCart product) /\
  cart (state b') = [] /\
  localStorage b' !! "cart" = None /\
  in_sync b'.
Proof.
  intros b'. unfold b'. rewrite handlePayment_after. simpl.
  split; [|split; [reflexivity|split; [apply lookup_delete_eq|]]].
  - intros [p|item v|item| |v|v|answer reply]; simpl; intros Hoff; eauto;
      try discriminate; try (now inversion Hoff).
  - right. split; [apply lookup_delete_eq|reflexivity].
Qed.

End MoreOrder.

Lemma empty_order_can_be_paid_witness :
  get_property "total"
    (@orderData sample_host (state (after
       (@session sample_host
          [ClickAddToCart tea; ClickPlaceOrder;
           ClickRemove {| fields := tea; quantity := 1%float |}])
       (browser_with []))))
  = Some (JString "0.00").
Proof.
  apply (@empty_order_can_be_paid sample_host tea NetworkError (browser_with [])).
  - constructor.
  - reflexivity.
  - reflexivity.
Defined.

Lemma handlePayment_does_no_more_witness :
  exists key : string,
    StorageRemove key ∈ events (@handlePayment sample_host true (Response 201))
                          (browser_with scenario_cart) /\
    key = "cart"%string.
Proof.
  assert (Hin : StorageRemove "cart" ∈
                events (@handlePayment sample_host true (Response 201))
                  (browser_with scenario_cart)).
  { apply list_elem_of_In. simpl. auto. }
  exists "cart"%string. split; [exact Hin|].
  apply (@handlePayment_does_no_more sample_host true (Response 201)
           (browser_with scenario_cart)).
  exact Hin.
Defined.

(** ** Whole quantities *)

Section Whole.

Lemma digits2_pos_unique (p : positive) (d : Z) :
  2 ^ (d - 1) <= Zpos p < 2 ^ d -> Zpos (digits2_pos p) = d.
Proof.
  intros [Hlo Hhi]. pose proof (digits2_pos_bounds p) as [Hlo' Hhi'].
  set (d' := Zpos (digits2_pos p)) in *.
  assert (0 < d').
  { unfold d'. lia. }
  assert (0 < d).
  { destruct (Z.lt_ge_cases 0 d); [assumption|].
    rewrite (Z.pow_neg_r 2 (d - 1)) in Hlo by lia.
    assert (2 ^ d <= 2 ^ 0) by (apply Z.pow_le_mono_r; lia). simpl in *. lia. }
  destruct (Z.lt_trichotomy d' d) as [Hlt|[Heq|Hgt]]; [|assumption|].
  - assert (2 ^ d' <= 2 ^ (d - 1)) by (apply Z.pow_le_mono_r; lia). lia.
  - assert (2 ^ d <= 2 ^ (d' - 1)) by (apply Z.pow_le_mono_r; lia). lia.
Qed.

Lemma shr_1_exact (m : Z) :
  0 <= m -> (2 | m) ->
  shr_1 (Build_shr_record m false false) = Build_shr_record (m / 2) false false.
Proof.
  intros Hm [k ->]. rewrite Z.div_mul by lia. rewrite (Z.mul_comm k 2) in *.
  destruct k as [|k|k]; try lia; reflexivity.
Qed.

Lemma iter_shr_1_exact (p : positive) (m : Z) :
  0 <= m -> (2 ^ Zpos p | m) ->
  SpecFloat.iter_pos shr_1 p (Build_shr_record m false false)
  = Build_shr_record (m / 2 ^ Zpos p) false false.
Proof.
  revert m. induction p as [p IH|p IH|]; intros m Hm [k Hk]; cbn [SpecFloat.iter_pos].
  - assert (Hpow : 2 ^ Zpos p~1 = 2 * (2 ^ Zpos p * 2 ^ Zpos p)).
    { rewrite Pos2Z.inj_xI, Z.pow_add_r, Z.pow_1_r, <- Z.add_diag, Z.pow_add_r by lia. lia. }
    assert (0 < 2 ^ Zpos p) by (apply Z.pow_pos_nonneg; lia).
    rewrite Hpow in *. subst m.
    rewrite shr_1_exact; [|lia|exists (k * (2 ^ Zpos p * 2 ^ Zpos p)); lia].
    replace (k * (2 * (2 ^ Zpos p * 2 ^ Zpos p)) / 2) with (k * 2 ^ Zpos p * 2 ^ Zpos p)
      by (apply Z.div_unique_exact; lia).
    assert (0 <= k) by nia.
    rewrite IH; [|nia|exists (k * 2 ^ Zpos p); lia].
    rewrite Z.div_mul by lia.
    rewrite IH; [|nia|exists k; lia].
    rewrite Z.div_mul by lia. f_equal.
    apply Z.div_unique_exact; lia.
  - assert (Hpow : 2 ^ Zpos p~0 = 2 ^ Zpos p * 2 ^ Zpos p).
    { replace (Zpos p~0) with (Zpos p + Zpos p) by lia. apply Z.pow_add_r; lia. }
    assert (0 < 2 ^ Zpos p) by (apply Z.pow_pos_nonneg; lia).
    rewrite Hpow in *. subst m.
    assert (0 <= k) by nia.
    rewrite IH; [|nia|exists (k * 2 ^ Zpos p); lia].
    replace (k * (2 ^ Zpos p * 2 ^ Zpos p) / 2 ^ Zpos p) with (k * 2 ^ Zpos p)
      by (apply Z.div_unique_exact; lia).
    rewrite IH; [|nia|exists k; lia].
    rewrite Z.div_mul by lia. f_equal.
    apply Z.div_unique_exact; lia.
  - apply shr_1_exact; [assumption|]. exists k. exact Hk.
Qed.

Lemma shr_fexp_exact_shift (M : positive) (e K : Z) :
  K = Zpos (digits2_pos M) - 53 -> 0 < K -> (2 ^ K | Zpos M) -> -1074 <= e + K ->
  shr_fexp prec emax (Zpos M) e loc_Exact
  = (Build_shr_record (Zpos M / 2 ^ K) false false, e + K).
Proof.
  intros HK Hpos Hdiv He. unfold shr_fexp, shr. simpl Zdigits2. simpl shr_record_of_loc.
  assert (Hs : fexp prec emax (Zpos (digits2_pos M) + e) - e = K).
  { unfold fexp, SpecFloat.emin, prec, emax. lia. }
  rewrite Hs. destruct K as [|p|p]; try lia.
  rewrite iter_shr_1_exact by (assumption || lia). reflexivity.
Qed.

Lemma shr_fexp_canonical (q : positive) (e : Z) :
  Zpos (digits2_pos q) = 53 -> -1074 <= e ->
  shr_fexp prec emax (Zpos q) e loc_Exact = (Build_shr_record (Zpos q) false false, e).
Proof.
  intros Hd He. unfold shr_fexp, shr. simpl Zdigits2. simpl shr_record_of_loc.
  assert (Hs : fexp prec emax (Zpos (digits2_pos q) + e) - e = 0).
  { unfold fexp, SpecFloat.emin, prec, emax. lia. }
  now rewrite Hs.
Qed.

(** Rounding a mantissa whose bits beyond the 53 leading ones are all 0
    drops them. *)
Lemma binary_round_aux_exact (M : positive) (e K : Z) :
  K = Zpos (digits2_pos M) - 53 -> 0 < K -> (2 ^ K | Zpos M) ->
  -1074 <= e + K <= 971 ->
  exists q : positive,
    Zpos q * 2 ^ K = Zpos M /\
    binary_round_aux prec emax false (Zpos M) e loc_Exact = S754_finite false q (e + K).
Proof.
  intros HK Hpos Hdiv He. unfold binary_round_aux.
  rewrite (shr_fexp_exact_shift M e K) by (assumption || lia).
  cbn [shr_m loc_of_shr_record round_nearest_even].
  destruct Hdiv as [m1 Hm1].
  assert (H2K : 0 < 2 ^ K) by (apply Z.pow_pos_nonneg; lia).
  rewrite Hm1, Z.div_mul by lia.
  pose proof (digits2_pos_bounds M) as [Hlo Hhi].
  replace (Zpos (digits2_pos M)) with (K + 53) in Hlo, Hhi by lia.
  replace (K + 53 - 1) with (52 + K) in Hlo by lia.
  rewrite Z.pow_add_r in Hlo, Hhi by lia. rewrite Z.mul_comm in Hhi.
  rewrite Hm1 in Hlo, Hhi.
  assert (Hb : 2 ^ 52 <= m1 < 2 ^ 53) by nia.
  destruct m1 as [|q|q]; try (simpl in Hb; lia).
  exists q. split; [reflexivity|].
  rewrite (shr_fexp_canonical q (e + K)); [|apply digits2_pos_unique; exact Hb|lia].
  cbn [shr_m].
  destruct (Z.leb_spec (e + K) (emax - prec)) as [_|Hgt]; [reflexivity|].
  unfold emax, prec in Hgt. lia.
Qed.

Lemma iter_xO_value (p d : positive) : Zpos (Pos.iter xO p d) = Zpos p * 2 ^ Zpos d.
Proof.
  induction d as [|d IH] using Pos.peano_ind.
  - change (Pos.iter xO p 1) with (p~0)%positive. change (2 ^ 1) with 2. lia.
  - rewrite Pos.iter_succ, Pos2Z.inj_succ, Z.pow_succ_r by lia.
    change (Zpos (Pos.iter xO p d)~0) with (2 * Zpos (Pos.iter xO p d)). rewrite IH. lia.
Qed.

(** A valid finite number that stands for a whole number from 0 to
    [2^53 - 1] is positive, with a full mantissa and no bit below the
    units. *)
Lemma whole_normal_form (s : bool) (m : positive) (e n : Z) :
  valid_binary (S754_finite s m e) = true ->
  sf_whole (S754_finite s m e) = Some n ->
  0 <= n < 2 ^ 53 ->
  s = false /\ -52 <= e <= 0 /\ Zpos m = n * 2 ^ (- e) /\ 2 ^ 52 <= Zpos m.
Proof.
  intros Hvalid Hwhole Hn.
  simpl in Hvalid. unfold bounded, canonical_mantissa in Hvalid.
  apply andb_true_iff in Hvalid as [Hcanon _]. apply Z.eqb_eq in Hcanon.
  unfold fexp, SpecFloat.emin, prec, emax in Hcanon.
  pose proof (digits2_pos_bounds m) as [Hlo Hhi].
  set (d := Zpos (digits2_pos m)) in *.
  assert (Hd : 0 < d) by (unfold d; lia).
  assert (Hd53 : d <= 53) by lia.
  assert (Hm53 : Zpos m < 2 ^ 53).
  { assert (2 ^ d <= 2 ^ 53) by (apply Z.pow_le_mono_r; lia). lia. }
  unfold sf_whole in Hwhole.
  destruct e as [|pe|pe].
  - (* e = 0 *)
    assert (Hd' : d = 53) by lia. cbv beta iota in Hwhole.
    rewrite Z.pow_0_r, Z.mul_1_r in Hwhole.
    destruct s; simpl in Hwhole; injection Hwhole as <-; [lia|].
    rewrite Hd' in Hlo. change (53 - 1) with 52 in Hlo.
    change (- 0) with 0. rewrite Z.pow_0_r. repeat split; lia.
  - (* e > 0: the number is at least 2^53 *)
    exfalso. assert (Hd' : d = 53) by lia. cbv beta iota in Hwhole.
    rewrite Hd' in Hlo. change (53 - 1) with 52 in Hlo.
    assert (2 ^ 1 <= 2 ^ Zpos pe) by (apply Z.pow_le_mono_r; lia).
    change (2 ^ 1) with 2 in *.
    destruct s; simpl in Hwhole; injection Hwhole as <-; [lia|].
    change (2 ^ 53) with (2 ^ 52 * 2) in Hn. nia.
  - (* e < 0 *)
    assert (H2k : 0 < 2 ^ Zpos pe) by (apply Z.pow_pos_nonneg; lia).
    cbv beta iota in Hwhole.
    destruct (Z.eqb_spec (Zpos m mod 2 ^ Zpos pe) 0) as [Hmod|]; [|discriminate].
    apply Z_div_exact_full_2 in Hmod; [|lia].
    set (v := Zpos m / 2 ^ Zpos pe) in *.
    assert (Hv : 1 <= v) by nia.
    destruct s; simpl in Hwhole; injection Hwhole as <-; [lia|].
    assert (Hk : Zpos pe <= 52).
    { destruct (Z.le_gt_cases (Zpos pe) 52) as [|Hgt]; [assumption|].
      assert (2 ^ 53 <= 2 ^ Zpos pe) by (apply Z.pow_le_mono_r; lia). nia. }
    assert (Hd' : d = 53) by lia.
    rewrite Hd' in Hlo. change (53 - 1) with 52 in Hlo.
    change (- Zneg pe) with (Zpos pe).
    repeat split; try lia.
Qed.

(** Adding 1 to a whole number from 0 to [2^53 - 1] gives the next whole
    number. *)
Lemma SFadd_one_whole (x : spec_float) (n : Z) :
  valid_binary x = true ->
  sf_whole x = Some n ->
  0 <= n < 2 ^ 53 ->
  sf_whole (SFadd prec emax x sf_one) = Some (n + 1).
Proof.
  intros Hvalid Hwhole Hn.
  destruct x as [s|s| |s m e]; try discriminate.
  - injection Hwhole as <-. reflexivity.
  - destruct (whole_normal_form s m e n Hvalid Hwhole Hn) as (-> & He & Hm & Hm52).
    clear Hvalid Hwhole.
    unfold SFadd, sf_one. rewrite Z.min_r by lia.
    set (mx' := fst (shl_align m e (-52))).
    assert (Hmx' : Zpos mx' = n * 2 ^ 52).
    { unfold mx', shl_align. destruct (-52 - e) as [|d|d] eqn:Hd; simpl.
      - replace (- e) with 52 in Hm by lia. exact Hm.
      - lia.
      - rewrite iter_xO_value, Hm, <- Z.mul_assoc, <- Z.pow_add_r by lia.
        f_equal. f_equal. lia. }
    change (fst (shl_align 4503599627370496 (-52) (-52))) with 4503599627370496%positive.
    simpl cond_Zopp.
    change (Zpos mx' + 4503599627370496) with (Zpos (mx' + 4503599627370496)).
    unfold binary_normalize, binary_round.
    set (M := (mx' + 4503599627370496)%positive).
    assert (HM : Zpos M = (n + 1) * 2 ^ 52).
    { unfold M. rewrite Pos2Z.inj_add, Hmx'. change (Zpos 4503599627370496) with (2 ^ 52). lia. }
    assert (Hn1 : 1 <= n).
    { change (2 ^ 52) with 4503599627370496 in *. nia. }
    pose proof (digits2_pos_bounds M) as [Hlo Hhi].
    set (dM := Zpos (digits2_pos M)) in *.
    assert (Hd54 : 54 <= dM).
    { destruct (Z.le_gt_cases 54 dM) as [|Hlt]; [assumption|].
      assert (2 ^ dM <= 2 ^ 53) by (apply Z.pow_le_mono_r; unfold dM; lia).
      change (2 ^ 52) with 4503599627370496 in *.
      change (2 ^ 53) with 9007199254740992 in *. lia. }
    assert (Hd106 : dM <= 106).
    { destruct (Z.le_gt_cases dM 106) as [|Hgt]; [assumption|].
      assert (2 ^ 106 <= 2 ^ (dM - 1)) by (apply Z.pow_le_mono_r; lia).
      change (2 ^ 106) with (2 * 9007199254740992 * 2 ^ 52) in *.
      change (2 ^ 53) with 9007199254740992 in *.
      assert (0 < 2 ^ 52) by reflexivity. nia. }
    assert (Halign : shl_align M (-52) (fexp prec emax (dM + -52)) = (M, -52)).
    { unfold shl_align.
      destruct (fexp prec emax (dM + -52) - -52) as [|d|d] eqn:Hs; try reflexivity.
      unfold fexp, SpecFloat.emin, prec, emax in Hs. lia. }
    fold dM. rewrite Halign.
    destruct (binary_round_aux_exact M (-52) (dM - 53)) as (q & Hq & ->);
      [reflexivity|lia| |lia|].
    + (* the bits dropped are 0 *)
      rewrite HM.
      destruct (Z.eq_dec dM 106) as [H106|Hne].
      * assert (Hexact : n + 1 = 2 ^ 53).
        { rewrite H106 in Hlo. change (2 ^ (106 - 1)) with (2 ^ 53 * 2 ^ 52) in Hlo.
          assert (0 < 2 ^ 52) by reflexivity. nia. }
        rewrite Hexact, H106. exists (2 ^ 52). reflexivity.
      * exists ((n + 1) * 2 ^ (52 - (dM - 53))).
        rewrite <- Z.mul_assoc, <- Z.pow_add_r by lia. f_equal. f_equal. lia.
    + (* the number that comes out *)
      rewrite HM in Hq. unfold sf_whole.
      assert (H2K : 0 < 2 ^ (dM - 53)) by (apply Z.pow_pos_nonneg; lia).
      destruct (-52 + (dM - 53)) as [|j|j] eqn:Hj; cbv beta iota; simpl fmap.
      * f_equal. replace (dM - 53) with 52 in Hq by lia.
        rewrite Z.pow_0_r. assert (0 < 2 ^ 52) by reflexivity. nia.
      * f_equal. assert (Hj1 : Zpos j = 1) by lia. rewrite Hj1.
        replace (dM - 53) with 53 in Hq by lia.
        change (2 ^ 53) with (2 * 2 ^ 52) in Hq. change (2 ^ 1) with 2.
        assert (0 < 2 ^ 52) by reflexivity. nia.
      * assert (Hqv : Zpos q = (n + 1) * 2 ^ Zpos j).
        { assert (H52 : 2 ^ 52 = 2 ^ Zpos j * 2 ^ (dM - 53)).
          { rewrite <- Z.pow_add_r by lia. f_equal. lia. }
          rewrite H52 in Hq. nia. }
        assert (0 < 2 ^ Zpos j) by (apply Z.pow_pos_nonneg; lia).
        rewrite Hqv, Z.mod_mul, Z.div_mul by lia. reflexivity.
Qed.

(** [q + 1] for a whole [q] from 0 to [2^53 - 1] is the next whole
    number. *)
Lemma add_one_whole (q : number) (n : Z) :
  whole_value q = Some n -> 0 <= n < 2 ^ 53 ->
  whole_value (add q 1%float) = Some (n + 1).
Proof.
  unfold whole_value, add. rewrite add_spec. change (Prim2SF 1%float) with sf_one.
  apply SFadd_one_whole, Prim2SF_valid.
Qed.

End Whole.

(** ** Adding to the cart *)

(** C2, as the code has it: [addToCart(product)] gives each line whose id
    is [===] to the product's the quantity [quantity + 1] of JavaScript,
    leaving the number of lines and every other line as they were, when
    there is such a line; that is one more, exactly, whenever the quantity
    was a whole number from 0 to [2^53 - 1].  It appends a line for the
    product with quantity 1 otherwise.  Either way it ends normally and its
    last effect is to write the resulting cart under ["cart"] in the
    storage. *)
Theorem addToCart_adds_one_or_appends `{Host} (product : Product) (b : Browser) :
  let c := cart (state b) in
  let c' := cart (state (after (addToCart product) b)) in
  ((exists item : CartItem, item ∈ c /\ (id item === id product) = true) ->
     length c' = length c /\
     (forall (i : nat) (item : CartItem), c !! i = Some item ->
        c' !! i = Some (if id item === id product
                        then {| fields := item; quantity := add (quantity item) 1%float |}
                        else item)) /\
     (forall (i : nat) (item : CartItem) (n : Z),
        c !! i = Some item -> (id item === id product) = true ->
        whole_value (quantity item) = Some n -> 0 <= n < 2 ^ 53 ->
        exists item' : CartItem,
          c' !! i = Some item' /\ fields item' = fields item /\
          whole_value (quantity item') = Some (n + 1))) /\
  ((forall item : CartItem, item ∈ c -> (id item === id product) = false) ->
     c' = c ++ [ {| fields := product; quantity := 1%float |} ]) /\
  completion (addToCart product) b = Normal () /\
  localStorage (after (addToCart product) b) !! "cart" = Some (JSON_stringify c') /\
  events (addToCart product) b = [StorageSet "cart" (JSON_stringify c')].
Proof.
  unfold after, completion, events. rewrite addToCart_run, saveCart_run. simpl.
  split; [|split; [|split; [|split]]].
  - intros Hex. destruct (find_some_of_exists _ _ Hex) as [y ->]. split; [|split].
    + now rewrite length_fmap.
    + intros i item Hi. now rewrite list_lookup_fmap, Hi.
    + intros i item n Hi Hid Hwhole Hn.
      exists {| fields := item; quantity := add (quantity item) 1%float |}.
      split; [|split; [reflexivity|]].
      * rewrite list_lookup_fmap, Hi. simpl. now rewrite Hid.
      * simpl. now apply add_one_whole.
  - intros Hnone. now rewrite find_none_of_forall.
  - reflexivity.
  - apply lookup_insert_eq.
  - reflexivity.
Qed.

Lemma addToCart_adds_one_or_appends_witness :
  (exists item' : CartItem,
     cart (state (after (@addToCart sample_host tea)
                        (browser_with [ {| fields := tea; quantity := 41%float |} ]))) !! 0%nat
     = Some item' /\
     fields item' = tea /\ whole_value (quantity item') = Some 42) /\
  cart (state (after (@addToCart sample_host mug)
                     (browser_with [ {| fields := tea; quantity := 1%float |} ])))
  = [ {| fields := tea; quantity := 1%float |}; {| fields := mug; quantity := 1%float |} ].
Proof.
  split.
  - destruct (@addToCart_adds_one_or_appends sample_host tea
                (browser_with [ {| fields := tea; quantity := 41%float |} ]))
      as [Hinc _].
    destruct Hinc as (_ & _ & Hinc).
    + exists {| fields := tea; quantity := 41%float |}.
      split; [constructor | reflexivity].
    + apply (Hinc 0%nat {| fields := tea; quantity := 41%float |} 41);
        [reflexivity|reflexivity|reflexivity|].
      split; [lia|reflexivity].
  - destruct (@addToCart_adds_one_or_appends sample_host mug
                (browser_with [ {| fields := tea; quantity := 1%float |} ]))
      as (_ & Happ & _).
    apply Happ. intros item Hin.
    apply list_elem_of_singleton in Hin. subst item. reflexivity.
Defined.

(** C2 as it was stated fails: on a line whose quantity is [2^53], or NaN,
    [addToCart] leaves the quantity as it is.  Both carts come from the
    page: the quantity field is given 9007199254740992, or is cleared, and
    the product is added. *)
Lemma addToCart_at_2_53_adds_nothing :
  let line (q : number) : CartItem := {| fields := tea; quantity := q |} in
  cart (state (after (@addToCart sample_host tea)
                     (browser_with [line 9007199254740992%float])))
  = [line 9007199254740992%float] /\
  whole_value 9007199254740992%float = Some (2 ^ 53) /\
  cart (state (after (@addToCart sample_host tea) (browser_with [line NaN])))
  = [line NaN] /\
  cart (state (after (@session sample_host
                        [ChangeQuantity (line 1%float) "9007199254740992";
                         ClickAddToCart tea])
                     (browser_with [line 1%float])))
  = [line 9007199254740992%float] /\
  cart (state (after (@session sample_host
                        [ChangeQuantity (line 1%float) ""; ClickAddToCart tea])
                     (browser_with [line 1%float])))
  = [line NaN].
Proof. repeat split. Qed.

(** ** The texts [toFixed] gives *)

Section ToFixedCases.

Lemma all_digits_append (a b : string) :
  all_digits (a ++ b) = all_digits a && all_digits b.
Proof.
  induction a as [|c a IH]; simpl; [reflexivity|]. now rewrite IH, andb_assoc.
Qed.

Lemma all_digits_zeros (k : nat) : all_digits (zeros k) = true.
Proof. induction k as [|k IH]; simpl; [reflexivity|exact IH]. Qed.

Lemma all_digits_substring (s : string) (n m : nat) :
  all_digits s = true -> all_digits (String.substring n m s) = true.
Proof.
  revert n m. induction s as [|c s IH]; intros n m Hs.
  - destruct n, m; reflexivity.
  - simpl in Hs. apply andb_true_iff in Hs as [Hc Hs].
    destruct n as [|n]; simpl.
    + destruct m as [|m]; simpl; [reflexivity|]. rewrite Hc. now apply IH.
    + now apply IH.
Qed.

Lemma all_digits_uint (u : Decimal.uint) :
  all_digits (NilEmpty.string_of_uint u) = true.
Proof. induction u; simpl; assumption || reflexivity. Qed.

Lemma all_digits_decimal (n : Z) : all_digits (decimal_digits n) = true.
Proof.
  unfold decimal_digits, NilZero.string_of_uint.
  destruct (N.to_uint (Z.to_N n)); try reflexivity; apply all_digits_uint.
Qed.

(** With decimals asked for, the text is a whole part of digits, a point
    and that many digits. *)
Lemma fixed_digits_text (n : Z) (fd : nat) :
  (0 < fd)%nat ->
  exists whole frac : string,
    fixed_digits n fd = (whole ++ "." ++ frac)%string /\
    String.length frac = fd /\ (0 < String.length whole)%nat /\
    all_digits whole = true /\ all_digits frac = true.
Proof.
  intros Hfd. unfold fixed_digits.
  set (m := (zeros (S fd - String.length (decimal_digits n)) ++ decimal_digits n)%string).
  assert (Hm : (S fd <= String.length m)%nat).
  { unfold m. rewrite length_append, length_zeros. lia. }
  assert (Hd : all_digits m = true).
  { unfold m. now rewrite all_digits_append, all_digits_zeros, all_digits_decimal. }
  destruct fd as [|fd]; [lia|].
  eexists _, _. split; [reflexivity|]. split; [|split; [|split]].
  - apply length_substring. lia.
  - rewrite length_substring; lia.
  - now apply all_digits_substring.
  - now apply all_digits_substring.
Qed.

Lemma is_number_false_nan (x : number) : is_number x = false -> Prim2SF x = S754_nan.
Proof.
  unfold is_number, strict_eq. rewrite FloatAxioms.eqb_spec. unfold SFeqb, SFcompare.
  destruct (Prim2SF x) as [s|[]| |[] m e]; try discriminate; try reflexivity.
  all: rewrite Z.compare_refl, Pos.compare_cont_refl; discriminate.
Qed.

(** What [toFixed(2)] gives, case by case. *)
Lemma toFixed_2_cases (large : number -> string) (x : number) :
  (lt (PrimFloat.abs x) 1e21%float = true ->
   exists sign whole frac : string,
     toFixed large x 2 = (sign ++ whole ++ "." ++ frac)%string /\
     (sign = "" \/ sign = "-") /\ String.length frac = 2%nat /\
     (0 < String.length whole)%nat /\
     all_digits whole = true /\ all_digits frac = true) /\
  (is_number x = false -> toFixed large x 2 = "NaN") /\
  (x = Infinity -> toFixed large x 2 = "Infinity") /\
  (x = neg_Infinity -> toFixed large x 2 = "-Infinity") /\
  (ge (PrimFloat.abs x) 1e21%float = true -> lt (PrimFloat.abs x) Infinity = true ->
   toFixed large x 2
   = ((if lt x 0%float then "-" else "") ++ large (PrimFloat.abs x))%string).
Proof.
  split; [|split; [|split; [|split]]].
  - intros Hlt. pose proof (lt_not_ge _ _ Hlt) as Hge. unfold ge in Hge.
    unfold toFixed. rewrite Hge.
    unfold lt in Hlt. rewrite ltb_spec, abs_spec in Hlt. unfold SFltb in Hlt.
    destruct (Prim2SF x) as [s|s| |s m e]; simpl in Hlt; try discriminate.
    + destruct (fixed_digits_text 0 2) as (w & f & E & Hf & Hw & Hdw & Hdf); [lia|].
      exists ""%string, w, f. rewrite E. auto 6.
    + destruct (fixed_digits_text (fixed_scaled m e 2) 2)
        as (w & f & E & Hf & Hw & Hdw & Hdf); [lia|].
      exists (if s then "-" else "")%string, w, f. rewrite E.
      split; [reflexivity|]. destruct s; auto 6.
  - intros Hnan. unfold toFixed. now rewrite (is_number_false_nan x Hnan).
  - intros ->. reflexivity.
  - intros ->. reflexivity.
  - intros Hge Hfin. unfold toFixed. unfold ge in Hge. rewrite Hge.
    unfold lt in *. rewrite ltb_spec, abs_spec in Hfin. rewrite ltb_spec.
    unfold ge in *. rewrite leb_spec, abs_spec in Hge.
    change (Prim2SF 0%float) with (S754_zero false).
    change (Prim2SF Infinity) with (S754_infinity false) in Hfin.
    destruct (Prim2SF x) as [s|s| |s m e]; try discriminate.
    destruct s; reflexivity.
Qed.

End ToFixedCases.

(** ** The order that is sent *)

(** C5, as the code has it, for the copy of the component that reads the
    address of the server from [API_URL]: once the payment is confirmed,
    the request goes to the order endpoint with a body whose [items] has
    one entry per line of the cart, in order, each with the properties
    [product_id], [quantity] and [price], in this order and no other,
    holding the line's id, its quantity and its price parsed by
    [parseFloat]; and whose [total] is the text [total.toFixed(2)].  That
    text is an optional minus sign, a whole part of digits, a point and two
    digits when the total is of magnitude below [10^21]; it is "NaN",
    "Infinity" or "-Infinity" when the total is; and it is the sign and
    [Number::toString] of the magnitude from [10^21] on. *)
Theorem order_payload_items_and_total `{Host} (reply : HttpReply) (b : Browser) :
  let st := state b in
  let t := total (cart st) in
  exists (data : JsValue) (rest : list Event) (items : list JsValue) (text : string),
    events (handlePayment true reply) b =
      Confirm (confirm_message st) :: Post order_url data true :: rest /\
    (forall (url : string) (d : JsValue) (w : bool), Post url d w ∉ rest) /\
    get_property "items" data = Some (JArray items) /\
    length items = length (cart st) /\
    (forall (i : nat) (item : CartItem), cart st !! i = Some item ->
       exists entry : JsValue,
         items !! i = Some entry /\
         property_names entry = ["product_id"; "quantity"; "price"]%string /\
         get_property "product_id" entry = Some (JNumber (id item)) /\
         get_property "quantity" entry = Some (JNumber (quantity item)) /\
         get_property "price" entry = Some (JNumber (parseFloat (price item)))) /\
    get_property "total" data = Some (JString text) /\
    text = toFixed Number_toString_large t 2 /\
    (lt (PrimFloat.abs t) 1e21%float = true ->
     exists sign whole frac : string,
       text = (sign ++ whole ++ "." ++ frac)%string /\
       (sign = "" \/ sign = "-") /\ String.length frac = 2%nat /\
       (0 < String.length whole)%nat /\
       all_digits whole = true /\ all_digits frac = true) /\
    (is_number t = false -> text = "NaN") /\
    (t = Infinity -> text = "Infinity") /\
    (t = neg_Infinity -> text = "-Infinity") /\
    (ge (PrimFloat.abs t) 1e21%float = true -> lt (PrimFloat.abs t) Infinity = true ->
     text = ((if lt t 0%float then "-" else "")
             ++ Number_toString_large (PrimFloat.abs t))%string).
Proof.
  intros st t.
  exists (orderData st).
  assert (Hev : exists rest,
            events (handlePayment true reply) b =
              Confirm (confirm_message st) :: Post order_url (orderData st) true :: rest /\
            forall (url : string) (d : JsValue) (w : bool), Post url d w ∉ rest).
  { rewrite handlePayment_events. eexists. split; [reflexivity|].
    intros url d w Hin. apply list_elem_of_In in Hin.
    destruct reply as [s|]; [destruct (validateStatus s); [destruct (s =? 201)|]|];
      simpl in Hin; repeat (destruct Hin as [Hin|Hin]; [discriminate|]); exact Hin. }
  destruct Hev as (rest & Hev & Hone).
  exists rest. eexists. exists (toFixed Number_toString_large t 2).
  split; [exact Hev|]. split; [exact Hone|].
  split; [reflexivity|]. split; [apply length_fmap|].
  split; [|split; [reflexivity|split; [reflexivity|]]].
  - intros i item Hi. eexists. split.
    + rewrite list_lookup_fmap, Hi. reflexivity.
    + repeat split.
  - apply toFixed_2_cases.
Qed.

Lemma order_payload_items_and_total_witness :
  exists sign whole frac : string,
    toFixed (@Number_toString_large sample_host) (total scenario_cart) 2
      = (sign ++ whole ++ "." ++ frac)%string /\
    (sign = "" \/ sign = "-") /\ String.length frac = 2%nat /\
    (0 < String.length whole)%nat /\
    all_digits whole = true /\ all_digits frac = true.
Proof.
  destruct (@order_payload_items_and_total sample_host NetworkError
              (browser_with scenario_cart))
    as (data & rest & items & text & _ & _ & _ & _ & _ & _ & Htext & Hfixed & _).
  subst text. apply Hfixed. reflexivity.
Defined.

(** C5 as it was stated fails.  With a product whose price is no number,
    or with the quantity field of a line cleared, the [total] of the order
    is the text "NaN", with no decimals; and in the first copy of the file
    the lines of the order have no [product_id]: the id is under [id]. *)
Lemma order_total_without_decimals :
  let unpriced : CartItem :=
    {| fields := {| id := 4%float; name := "Sample"; price := "free";
                    description := "A sample"; stock := 1%float |};
       quantity := 1%float |} in
  let line : CartItem := {| fields := tea; quantity := 1%float |} in
  get_property "total" (@orderData sample_host (state (browser_with [unpriced])))
    = Some (JString "NaN") /\
  get_property "total"
    (@orderData sample_host
       (state (after (@quantity_onChange sample_host line "") (browser_with [line]))))
    = Some (JString "NaN") /\
  exists (rest : list Event) (entry : JsValue),
    events (@Localhost.handlePayment sample_host true NetworkError) (browser_with [line])
    = Confirm "Симуляція оплати: підтвердьте оплату 9.99 грн"
      :: Post "http://localhost:5000/api/order"
           (JObject [("customerName", JString "Olha");
                     ("deliveryAddress", JString "Lviv");
                     ("items", JArray [entry]);
                     ("total", JString "9.99")]) true
      :: rest /\
    property_names entry = ["id"; "quantity"; "price"]%string /\
    get_property "product_id" entry = None.
Proof.
  split; [reflexivity|]. split; [reflexivity|].
  eexists _, _. split; [reflexivity|]. split; reflexivity.
Qed.

(** ** The order of the first copy *)

(** In the first copy of the file, once the payment is confirmed, one
    request goes to the order endpoint on localhost with a body whose
    [items] has one entry per line of the cart, in order, each with the
    properties [id], [quantity] and [price], in this order and no other,
    holding the line's id, its quantity and its parsed price: there is no
    [product_id]. *)
Theorem localhost_order_payload `{Host} (reply : HttpReply) (b : Browser) :
  let st := state b in
  exists (message : string) (data : JsValue) (rest : list Event) (items : list JsValue),
    events (Localhost.handlePayment true reply) b =
      Confirm message :: Post "http://localhost:5000/api/order" data true :: rest /\
    (forall (url : string) (d : JsValue) (w : bool), Post url d w ∉ rest) /\
    get_property "items" data = Some (JArray items) /\
    length items = length (cart st) /\
    (forall (i : nat) (item : CartItem), cart st !! i = Some item ->
       exists entry : JsValue,
         items !! i = Some entry /\
         property_names entry = ["id"; "quantity"; "price"]%string /\
         get_property "id" entry = Some (JNumber (id item)) /\
         get_property "product_id" entry = None /\
         get_property "quantity" entry = Some (JNumber (quantity item)) /\
         get_property "price" entry = Some (JNumber (parseFloat (price item)))) /\
    get_property "total" data
      = Some (JString (toFixed Number_toString_large (total (cart st)) 2)).
Proof.
  intros st.
  assert (Hev : exists rest,
            events (Localhost.handlePayment true reply) b =
              Confirm ("Симуляція оплати: підтвердьте оплату "
                       ++ toFixed Number_toString_large (total (cart st)) 2 ++ " грн")
              :: Post "http://localhost:5000/api/order" (Localhost.orderData st) true
              :: rest /\
            forall (url : string) (d : JsValue) (w : bool), Post url d w ∉ rest).
  { unfold events, Localhost.handlePayment, mbind, handler_bind, render,
      window_confirm, try_catch, axios_post.
    destruct reply as [s|];
      [destruct (validateStatus s); simpl; [destruct (s =? 201)|]|];
      simpl; eexists; (split; [reflexivity|]);
      intros url d w Hin; apply list_elem_of_In in Hin; simpl in Hin;
      repeat (destruct Hin as [Hin|Hin]; [discriminate|]); exact Hin. }
  destruct Hev as (rest & Hev & Hone).
  eexists _, (Localhost.orderData st), rest, _.
  split; [exact Hev|]. split; [exact Hone|].
  split; [reflexivity|]. split; [apply length_fmap|]. split; [|reflexivity].
  intros i item Hi. eexists. split.
  - rewrite list_lookup_fmap, Hi. reflexivity.
  - repeat split.
Qed.

Lemma localhost_order_payload_witness :
  exists entry : JsValue,
    ((fun item : CartItem =>
        JObject [("id", JNumber (id item)); ("quantity", JNumber (quantity item));
                 ("price", JNumber (parseFloat (price item)))]) <$> scenario_cart) !! 1%nat
    = Some entry /\
    get_property "id" entry = Some (JNumber 2%float) /\
    get_property "product_id" entry = None.
Proof.
  destruct (@localhost_order_payload sample_host NetworkError (browser_with scenario_cart))
    as (message & data & rest & items & Hev & _ & Hitems & _ & Hlines & _).
  injection Hev as _ <- _. injection Hitems as <-.
  destruct (Hlines 1%nat {| fields := mug; quantity := 1%float |})
    as (entry & Hentry & _ & Hid & Hno & _); [reflexivity|].
  exists entry. split; [exact Hentry|]. split; assumption.
Defined.
